(** * KaChow order fulfilment: orders, payments, events and notifications

    A shallow embedding of the request handlers of the order, payment,
    notification and user services, and the properties of the design
    document checked against them.

    Conventions of the embedding.
    - A JavaScript number is an IEEE 754 binary64 value: [float].
    - An in-memory [Map] from identifiers to records is a [gmap string _].
      The handlers mutate the record held by the map and then [set] it again
      under the same key; both steps are one [insert] here.
    - A property that a JavaScript object may lack ([undefined]) or hold as
      [null] is an [option].
    - Whatever a handler takes from outside (generated identifiers, the
      clock, [Math.random()], the answers of remote services) is an argument
      of the handler, so that every handler is a total function. *)

From Stdlib Require Import Floats.
From stdpp Require Import gmap strings list.

(* Decimal literals such as 29.99 denote the nearest binary64 value, as in
   JavaScript. *)
Set Warnings "-inexact-float".
Local Open Scope string_scope.

(** ** HTTP calls through axios *)

Module Http.

(** What a handler answers: [res.status(code).json(body)]. *)
Record Response (B : Type) : Type := respond { code : nat; body : B }.
Arguments respond {B} _ _.
Arguments code {B} _.
Arguments body {B} _.

(** What can happen to a request sent to another service. *)
Inductive Outcome (B : Type) : Type :=
| Responded (r : Response B)
| TimedOut
| Unreachable.
Arguments Responded {B} _.
Arguments TimedOut {B}.
Arguments Unreachable {B}.

(** The promise returned by [axios.get] and [axios.post]. *)
Inductive Promise (B : Type) : Type :=
| Resolved (data : B)
| Rejected.
Arguments Resolved {B} _.
Arguments Rejected {B}.

(** axios' default [validateStatus]: only a 2xx answer resolves. *)
Definition validateStatus (c : nat) : bool := (200 <=? c)%nat && (c <? 300)%nat.

Definition axios {B} (o : Outcome B) : Promise B :=
  match o with
  | Responded r => if validateStatus (code r) then Resolved (body r) else Rejected
  | TimedOut => Rejected
  | Unreachable => Rejected
  end.

Definition resolves {B} (o : Outcome B) : bool :=
  match axios o with Resolved _ => true | Rejected => false end.

End Http.

(** ** The shared contracts *)

Module Contracts.

(** Modelled from the spec: the [EventTypes] table of the shared-contracts
    package, which is not among the sources.  The keys are the ones the
    services refer to.  The design document lists the event kinds
    OrderCreated, OrderUpdated, PaymentProcessed, PaymentRefunded and
    UserCreated; the key [PAYMENT_FAILED] stands for the kind that the
    payment service's README and start-up banner call PaymentFailed. *)
Module EventTypes.
Definition ORDER_CREATED : string := "OrderCreated".
Definition ORDER_UPDATED : string := "OrderUpdated".
Definition PAYMENT_PROCESSED : string := "PaymentProcessed".
Definition PAYMENT_FAILED : string := "PaymentFailed".
Definition USER_CREATED : string := "UserCreated".
End EventTypes.

(** The event kind that the design document attaches to a refund. *)
Definition PaymentRefunded : string := "PaymentRefunded".

(** The two subscribers of every event: the keys of [ServiceUrls] that
    [emitEvent] posts to, each at its [/events] path. *)
Inductive Subscriber : Type := NOTIFICATION_SERVICE | ANALYTICS_SERVICE.

(** The envelope built by [emitEvent]. *)
Record Event (P : Type) : Type := {
  eventId : string;
  eventType : string;
  timestamp : string;
  payload : P
}.
Arguments eventId {P} _.
Arguments eventType {P} _.
Arguments timestamp {P} _.
Arguments payload {P} _.

(** The acknowledgement of a subscriber. *)
Record Ack : Type := { received : bool; ackEventType : string }.

(** One [axios.post] of an event, with what came of it. *)
Record Delivery (P : Type) : Type := {
  target : Subscriber;
  sent : Event P;
  delivered : bool
}.
Arguments target {P} _.
Arguments sent {P} _.
Arguments delivered {P} _.

(** The network as an event publisher sees it. *)
Definition Bus (P : Type) : Type := Subscriber -> Event P -> Http.Outcome Ack.

(** What [emitEvent] draws from outside: [generateEventId()] and the clock. *)
Record EmitEnv : Type := { newEventId : string; eventTime : string }.

End Contracts.

(** ** user-service *)

Module UserService.

Record Address : Type := {
  street : string; city : string; zipCode : string; country : string
}.

Record User : Type := {
  id : string;
  username : string;
  email : string;
  fullName : string;
  phone : option string;
  address : option Address;
  createdAt : string;
  lastLoginAt : option string
}.

Definition users0 : gmap string User :=
  <[ "usr-003" := {| id := "usr-003"; username := "bob_wilson";
                     email := "bob@example.com"; fullName := "Bob Wilson";
                     phone := Some "+1-555-0103";
                     address := Some {| street := "789 Pine Rd"; city := "Chicago";
                                        zipCode := "60601"; country := "USA" |};
                     createdAt := "2024-01-17T14:20:00Z";
                     lastLoginAt := Some "2024-01-18T16:45:00Z" |} ]>
  (<[ "usr-002" := {| id := "usr-002"; username := "jane_smith";
                      email := "jane@example.com"; fullName := "Jane Smith";
                      phone := Some "+1-555-0102";
                      address := Some {| street := "456 Oak Ave"; city := "Los Angeles";
                                         zipCode := "90001"; country := "USA" |};
                      createdAt := "2024-01-16T11:00:00Z";
                      lastLoginAt := Some "2024-01-19T09:15:00Z" |} ]>
  (<[ "usr-001" := {| id := "usr-001"; username := "john_doe";
                      email := "john@example.com"; fullName := "John Doe";
                      phone := Some "+1-555-0101";
                      address := Some {| street := "123 Main St"; city := "New York";
                                         zipCode := "10001"; country := "USA" |};
                      createdAt := "2024-01-15T10:30:00Z";
                      lastLoginAt := Some "2024-01-20T14:30:00Z" |} ]> ∅)).

Inductive ResBody : Type :=
| UserBody (user : User)
| ErrorBody (error : string) (userId : string).

(** [app.get('/users/:id')] *)
Definition getUser (id : string) (users : gmap string User) : Http.Response ResBody :=
  match users !! id with
  | None => Http.respond 404 (ErrorBody "User not found" id)
  | Some user => Http.respond 200 (UserBody user)
  end.

End UserService.

(** ** payment-service *)

Module PaymentService.
Import Contracts.

Record Payment : Type := {
  id : string;
  orderId : string;
  amount : float;
  currency : string;
  status : string;
  paymentMethod : string;
  createdAt : option string;
  processedAt : option string;
  transactionId : option string;
  error : option string;
  refundedAt : option string;
  refundTransactionId : option string
}.

(** [payment.status = s] and the like: assignments to one property. *)
Definition set_status (s : string) (p : Payment) : Payment :=
  {| id := id p; orderId := orderId p; amount := amount p; currency := currency p;
     status := s; paymentMethod := paymentMethod p; createdAt := createdAt p;
     processedAt := processedAt p; transactionId := transactionId p; error := error p;
     refundedAt := refundedAt p; refundTransactionId := refundTransactionId p |}.

Definition set_processedAt (t : option string) (p : Payment) : Payment :=
  {| id := id p; orderId := orderId p; amount := amount p; currency := currency p;
     status := status p; paymentMethod := paymentMethod p; createdAt := createdAt p;
     processedAt := t; transactionId := transactionId p; error := error p;
     refundedAt := refundedAt p; refundTransactionId := refundTransactionId p |}.

Definition set_transactionId (t : option string) (p : Payment) : Payment :=
  {| id := id p; orderId := orderId p; amount := amount p; currency := currency p;
     status := status p; paymentMethod := paymentMethod p; createdAt := createdAt p;
     processedAt := processedAt p; transactionId := t; error := error p;
     refundedAt := refundedAt p; refundTransactionId := refundTransactionId p |}.

Definition set_error (e : option string) (p : Payment) : Payment :=
  {| id := id p; orderId := orderId p; amount := amount p; currency := currency p;
     status := status p; paymentMethod := paymentMethod p; createdAt := createdAt p;
     processedAt := processedAt p; transactionId := transactionId p; error := e;
     refundedAt := refundedAt p; refundTransactionId := refundTransactionId p |}.

Definition set_refundedAt (t : option string) (p : Payment) : Payment :=
  {| id := id p; orderId := orderId p; amount := amount p; currency := currency p;
     status := status p; paymentMethod := paymentMethod p; createdAt := createdAt p;
     processedAt := processedAt p; transactionId := transactionId p; error := error p;
     refundedAt := t; refundTransactionId := refundTransactionId p |}.

Definition set_refundTransactionId (t : option string) (p : Payment) : Payment :=
  {| id := id p; orderId := orderId p; amount := amount p; currency := currency p;
     status := status p; paymentMethod := paymentMethod p; createdAt := createdAt p;
     processedAt := processedAt p; transactionId := transactionId p; error := error p;
     refundedAt := refundedAt p; refundTransactionId := t |}.

(** The pre-seeded store. *)
Definition payments0 : gmap string Payment :=
  <[ "pay-001" := {| id := "pay-001"; orderId := "ord-001"; amount := 109.97;
                     currency := "USD"; status := "completed"; paymentMethod := "card";
                     createdAt := None;
                     processedAt := Some "2024-01-20T10:05:00Z";
                     transactionId := Some "txn_1234567890"; error := None;
                     refundedAt := None; refundTransactionId := None |} ]> ∅.

(** The body of [POST /payments]. *)
Module PaymentRequest.
Record t : Type := {
  orderId : string;
  amount : float;
  currency : option string;
  paymentMethod : string
}.
End PaymentRequest.

(** Modelled from the spec: [schemas.PaymentRequestSchema] of the
    shared-contracts package, not among the sources: currency is one of USD,
    EUR, GBP when given, the method one of card, bank_transfer, paypal. *)
Definition PaymentRequestSchema (body : PaymentRequest.t) : option string :=
  let currencyOk :=
    match PaymentRequest.currency body with
    | None => true
    | Some c => bool_decide (c ∈ ["USD"; "EUR"; "GBP"])
    end in
  if currencyOk
     && bool_decide (PaymentRequest.paymentMethod body ∈ ["card"; "bank_transfer"; "paypal"])
  then None else Some "ValidationError".

(** The answer of [POST /payments], on success and on a decline. *)
Module PaymentResponse.
Record t : Type := {
  id : string;
  orderId : string;
  amount : float;
  currency : string;
  status : string;
  paymentMethod : string;
  transactionId : option string;
  processedAt : option string;
  error : option string
}.
End PaymentResponse.

(** The payload of the event emitted after processing. *)
Module ProcessedPayload.
Record t : Type := {
  paymentId : string;
  orderId : string;
  status : string;
  amount : float;
  currency : string;
  transactionId : option string;
  processedAt : option string;
  error : option string
}.
End ProcessedPayload.

(** The payload of the event emitted after a refund. *)
Module RefundPayload.
Record t : Type := {
  paymentId : string;
  orderId : string;
  reason : string;
  amount : float;
  refundedAt : option string;
  refundTransactionId : option string
}.
End RefundPayload.

Inductive Payload : Type :=
| Processed (p : ProcessedPayload.t)
| Refund (p : RefundPayload.t).

Inductive ResBody : Type :=
| ErrorBody (error : string) (details : string)
| PaymentBody (response : PaymentResponse.t)
| RefundBody (payment : Payment) (message : string).

(** The result of [processPayment]. *)
Record ProcessResult : Type := {
  resultStatus : string;
  resultTransactionId : option string;
  resultError : option string;
  resultMessage : string
}.

(** What [POST /payments] draws from outside. *)
Record Env : Type := {
  newPaymentId : string;       (* generatePaymentId() *)
  createdTime : string;        (* the clock at creation *)
  random : float;              (* Math.random() in processPayment *)
  newTransactionId : string;   (* generateTransactionId() *)
  processedTime : string;      (* the clock after processing *)
  emitEnv : EmitEnv
}.

(** What [POST /payments/:id/refund] draws from outside. *)
Record RefundEnv : Type := {
  refundedTime : string;
  refundTransaction : string;  (* generateTransactionId() *)
  refundEmitEnv : EmitEnv
}.

(** [processPayment]: the authorization succeeds when
    [Math.random() > 0.1]. *)
Definition processPayment (env : Env) : ProcessResult :=
  let success := PrimFloat.ltb 0.1 (random env) in
  if success then
    {| resultStatus := "completed";
       resultTransactionId := Some (newTransactionId env);
       resultError := None;
       resultMessage := "Payment processed successfully" |}
  else
    {| resultStatus := "failed";
       resultTransactionId := None;
       resultError := Some "Payment declined by processor";
       resultMessage := "Your payment method was declined. Please try again." |}.

(** One [try { await axios.post(url, event) } catch (err) { log }]. *)
Definition post (bus : Bus Payload) (s : Subscriber) (event : Event Payload)
  : Delivery Payload :=
  match Http.axios (bus s event) with
  | Http.Resolved _ => {| target := s; sent := event; delivered := true |}
  | Http.Rejected => {| target := s; sent := event; delivered := false |}
  end.

(** [emitEvent]: the posts made, in order, and the event returned. *)
Definition emitEvent (bus : Bus Payload) (env : EmitEnv)
    (eventType : string) (payload : Payload)
  : list (Delivery Payload) * Event Payload :=
  let event := {| eventId := newEventId env; eventType := eventType;
                  timestamp := eventTime env; payload := payload |} in
  let toNotification := post bus NOTIFICATION_SERVICE event in
  let toAnalytics := post bus ANALYTICS_SERVICE event in
  ([toNotification; toAnalytics], event).

(** [x || fallback] on a string property that may be missing. *)
Definition orElse {A} (x : option string) (fallback : A) (keep : string -> A) : A :=
  match x with
  | Some s => if String.eqb s "" then fallback else keep s
  | None => fallback
  end.

(** [app.post('/payments')] *)
Definition createPayment (validate : PaymentRequest.t -> option string)
    (bus : Bus Payload) (env : Env)
    (body : PaymentRequest.t) (payments : gmap string Payment)
  : Http.Response ResBody * gmap string Payment * list (Delivery Payload) :=
  match validate body with
  | Some details => (Http.respond 400 (ErrorBody "Invalid request" details), payments, [])
  | None =>
    let orderId := PaymentRequest.orderId body in
    let amount := PaymentRequest.amount body in
    let paymentMethod := PaymentRequest.paymentMethod body in
    (* Step 1: the payment record, pending *)
    let paymentId := newPaymentId env in
    let payment :=
      {| id := paymentId; orderId := orderId; amount := amount;
         currency := orElse (PaymentRequest.currency body) "USD" (fun c => c);
         status := "pending"; paymentMethod := paymentMethod;
         createdAt := Some (createdTime env); processedAt := None;
         transactionId := None; error := None;
         refundedAt := None; refundTransactionId := None |} in
    let payments := <[paymentId := payment]> payments in
    (* Step 2: processing *)
    let processResult := processPayment env in
    (* Step 3: the record takes the result *)
    let payment := set_status (resultStatus processResult) payment in
    let payment := set_processedAt (Some (processedTime env)) payment in
    let payment :=
      if String.eqb (resultStatus processResult) "completed"
      then set_transactionId (resultTransactionId processResult) payment
      else set_error (resultError processResult) payment in
    let payments := <[paymentId := payment]> payments in
    (* Step 4: the event *)
    let '(deliveries, _) :=
      emitEvent bus (emitEnv env) EventTypes.PAYMENT_PROCESSED
        (Processed {| ProcessedPayload.paymentId := paymentId;
                      ProcessedPayload.orderId := orderId;
                      ProcessedPayload.status := status payment;
                      ProcessedPayload.amount := amount;
                      ProcessedPayload.currency := currency payment;
                      ProcessedPayload.transactionId := transactionId payment;
                      ProcessedPayload.processedAt := processedAt payment;
                      ProcessedPayload.error := orElse (error payment) None Some |}) in
    (* Step 5: the answer *)
    let response (e : option string) :=
      {| PaymentResponse.id := paymentId;
         PaymentResponse.orderId := orderId;
         PaymentResponse.amount := amount;
         PaymentResponse.currency := currency payment;
         PaymentResponse.status := status payment;
         PaymentResponse.paymentMethod := paymentMethod;
         PaymentResponse.transactionId := transactionId payment;
         PaymentResponse.processedAt := processedAt payment;
         PaymentResponse.error := e |} in
    if String.eqb (status payment) "failed"
    then (Http.respond 402 (PaymentBody (response (error payment))), payments, deliveries)
    else (Http.respond 201 (PaymentBody (response None)), payments, deliveries)
  end.

(** [app.post('/payments/:id/refund')] *)
Definition refund (bus : Bus Payload) (env : RefundEnv)
    (id : string) (payments : gmap string Payment)
  : Http.Response ResBody * gmap string Payment * list (Delivery Payload) :=
  match payments !! id with
  | None => (Http.respond 404 (ErrorBody "Payment not found" id), payments, [])
  | Some payment =>
    if negb (String.eqb (status payment) "completed") then
      (Http.respond 400
         (ErrorBody "Cannot refund"
            (String.append "Payment status is "
               (String.append (status payment)
                  ", only completed payments can be refunded"))),
       payments, [])
    else
      let payment := set_status "refunded" payment in
      let payment := set_refundedAt (Some (refundedTime env)) payment in
      let payment := set_refundTransactionId (Some (refundTransaction env)) payment in
      let payments := <[id := payment]> payments in
      let '(deliveries, _) :=
        emitEvent bus (refundEmitEnv env) EventTypes.PAYMENT_FAILED
          (Refund {| RefundPayload.paymentId := id;
                     RefundPayload.orderId := orderId payment;
                     RefundPayload.reason := "refund";
                     RefundPayload.amount := amount payment;
                     RefundPayload.refundedAt := refundedAt payment;
                     RefundPayload.refundTransactionId := refundTransactionId payment |}) in
      (Http.respond 200 (RefundBody payment "Payment refunded successfully"),
       payments, deliveries)
  end.

(** The same handler in two steps.  Between the status check and the write
    the handler awaits a timer of 500 ms, and other requests are served
    while it does; [refund] above is the run in which none of them touches
    the payment.

    [refundCheck] is the handler up to the timer: it answers at once, or
    goes on, holding the payment object that it found. *)
Inductive RefundCheck : Type :=
| RefundAnswered (res : Http.Response ResBody)
| RefundAwaiting (payment : Payment).

Definition refundCheck (id : string) (payments : gmap string Payment) : RefundCheck :=
  match payments !! id with
  | None => RefundAnswered (Http.respond 404 (ErrorBody "Payment not found" id))
  | Some payment =>
    if negb (String.eqb (status payment) "completed") then
      RefundAnswered
        (Http.respond 400
           (ErrorBody "Cannot refund"
              (String.append "Payment status is "
                 (String.append (status payment)
                    ", only completed payments can be refunded"))))
    else RefundAwaiting payment
  end.

(** [refundResume] is the handler from the expiry of the timer to its
    answer, on the store as it is by then: it assigns to the object it
    holds without looking at its status again, sets it in the map, publishes
    and answers.  A completed payment is written to by refunds only, which
    assign these same three properties, so the object held, once they are
    assigned, is the object of the check with them assigned.  The two posts
    of [emitEvent] are awaited before the answer; this step is the run in
    which no other request writes to the payment while they are. *)
Definition refundResume (bus : Bus Payload) (env : RefundEnv)
    (id : string) (payment : Payment) (payments : gmap string Payment)
  : Http.Response ResBody * gmap string Payment * list (Delivery Payload) :=
  let payment := set_status "refunded" payment in
  let payment := set_refundedAt (Some (refundedTime env)) payment in
  let payment := set_refundTransactionId (Some (refundTransaction env)) payment in
  let payments := <[id := payment]> payments in
  let '(deliveries, _) :=
    emitEvent bus (refundEmitEnv env) EventTypes.PAYMENT_FAILED
      (Refund {| RefundPayload.paymentId := id;
                 RefundPayload.orderId := orderId payment;
                 RefundPayload.reason := "refund";
                 RefundPayload.amount := amount payment;
                 RefundPayload.refundedAt := refundedAt payment;
                 RefundPayload.refundTransactionId := refundTransactionId payment |}) in
  (Http.respond 200 (RefundBody payment "Payment refunded successfully"),
   payments, deliveries).

End PaymentService.

(** ** order-service *)

Module OrderService.
Import Contracts.

Record OrderItem : Type := {
  productId : string;
  quantity : float;
  unitPrice : float
}.

Record Order : Type := {
  id : string;
  userId : string;
  items : list OrderItem;
  totalAmount : float;
  status : string;
  paymentId : option string;
  createdAt : string;
  updatedAt : string
}.

Definition set_status (s : string) (o : Order) : Order :=
  {| id := id o; userId := userId o; items := items o; totalAmount := totalAmount o;
     status := s; paymentId := paymentId o; createdAt := createdAt o;
     updatedAt := updatedAt o |}.

Definition set_paymentId (p : option string) (o : Order) : Order :=
  {| id := id o; userId := userId o; items := items o; totalAmount := totalAmount o;
     status := status o; paymentId := p; createdAt := createdAt o;
     updatedAt := updatedAt o |}.

Definition set_updatedAt (t : string) (o : Order) : Order :=
  {| id := id o; userId := userId o; items := items o; totalAmount := totalAmount o;
     status := status o; paymentId := paymentId o; createdAt := createdAt o;
     updatedAt := t |}.

(** The pre-seeded store. *)
Definition orders0 : gmap string Order :=
  <[ "ord-002" := {| id := "ord-002"; userId := "usr-002";
                     items := [ {| productId := "prod-003"; quantity := 3;
                                   unitPrice := 19.99 |} ];
                     totalAmount := 59.97; status := "pending"; paymentId := None;
                     createdAt := "2024-01-21T14:30:00Z";
                     updatedAt := "2024-01-21T14:30:00Z" |} ]>
  (<[ "ord-001" := {| id := "ord-001"; userId := "usr-001";
                      items := [ {| productId := "prod-001"; quantity := 2;
                                    unitPrice := 29.99 |};
                                 {| productId := "prod-002"; quantity := 1;
                                    unitPrice := 49.99 |} ];
                      totalAmount := 109.97; status := "confirmed";
                      paymentId := Some "pay-001";
                      createdAt := "2024-01-20T10:00:00Z";
                      updatedAt := "2024-01-20T10:05:00Z" |} ]> ∅).

(** [calculateTotal]: [items.reduce((sum, item) => sum + quantity * unitPrice, 0)]. *)
Definition calculateTotal (items : list OrderItem) : float :=
  fold_left (fun sum item => (sum + quantity item * unitPrice item)%float) items 0%float.

(** The body of [POST /orders]. *)
Module CreateOrderRequest.
Record t : Type := { userId : string; items : list OrderItem }.
End CreateOrderRequest.

(** Modelled from the spec: [schemas.CreateOrderRequestSchema] of the
    shared-contracts package, not among the sources: the items are not
    empty, and no quantity and no unit price is negative. *)
Definition CreateOrderRequestSchema (body : CreateOrderRequest.t) : option string :=
  match CreateOrderRequest.items body with
  | [] => Some "ValidationError"
  | items =>
    if forallb (fun item => PrimFloat.leb 0 (quantity item)
                            && PrimFloat.leb 0 (unitPrice item)) items
    then None else Some "ValidationError"
  end.

(** The payloads of the two events of this service. *)
Module CreatedPayload.
Record t : Type := {
  orderId : string;
  userId : string;
  totalAmount : float;
  items : list OrderItem;
  status : string;
  paymentId : option string
}.
End CreatedPayload.

Module UpdatedPayload.
Record t : Type := {
  orderId : string;
  userId : string;
  status : string;
  previousStatus : string
}.
End UpdatedPayload.

Inductive Payload : Type :=
| Created (p : CreatedPayload.t)
| Updated (p : UpdatedPayload.t).

Inductive ResBody : Type :=
| ErrorBody (error : string) (detail : string)
| InvalidStatusBody (error : string) (validStatuses : list string)
| CreatedBody (order : Order) (message : string) (payment : option PaymentService.ResBody)
| OrderBody (order : Order) (message : string).

(** The two services that [POST /orders] calls. *)
Record Remote : Type := {
  getUser : string -> Http.Outcome UserService.ResBody;
  postPayment : PaymentService.PaymentRequest.t -> Http.Outcome PaymentService.ResBody
}.

(** What [POST /orders] draws from outside. *)
Record Env : Type := {
  newOrderId : string;        (* generateOrderId() *)
  createdTime : string;       (* the clock, for createdAt *)
  updatedTime : string;       (* the clock, for updatedAt *)
  paidTime : string;          (* the clock after the payment answered *)
  emitEnv : EmitEnv
}.

(** What [PUT /orders/:id/status] draws from outside. *)
Record UpdateEnv : Type := {
  statusTime : string;
  updateEmitEnv : EmitEnv
}.

(** One [try { await axios.post(url, event) } catch (err) { log }]. *)
Definition post (bus : Bus Payload) (s : Subscriber) (event : Event Payload)
  : Delivery Payload :=
  match Http.axios (bus s event) with
  | Http.Resolved _ => {| target := s; sent := event; delivered := true |}
  | Http.Rejected => {| target := s; sent := event; delivered := false |}
  end.

(** [emitEvent]: the posts made, in order, and the event returned. *)
Definition emitEvent (bus : Bus Payload) (env : EmitEnv)
    (eventType : string) (payload : Payload)
  : list (Delivery Payload) * Event Payload :=
  let event := {| eventId := newEventId env; eventType := eventType;
                  timestamp := eventTime env; payload := payload |} in
  let toNotification := post bus NOTIFICATION_SERVICE event in
  let toAnalytics := post bus ANALYTICS_SERVICE event in
  ([toNotification; toAnalytics], event).

(** [payment.id] and [payment.status] on the data of the payment answer:
    [undefined] when the answer is not a payment. *)
Definition payment_id (data : PaymentService.ResBody) : option string :=
  match data with
  | PaymentService.PaymentBody r => Some (PaymentService.PaymentResponse.id r)
  | _ => None
  end.

Definition payment_status (data : PaymentService.ResBody) : option string :=
  match data with
  | PaymentService.PaymentBody r => Some (PaymentService.PaymentResponse.status r)
  | _ => None
  end.

(** The body that [POST /orders] sends to the payment service. *)
Definition paymentRequest (orderId : string) (totalAmount : float)
  : PaymentService.PaymentRequest.t :=
  {| PaymentService.PaymentRequest.orderId := orderId;
     PaymentService.PaymentRequest.amount := totalAmount;
     PaymentService.PaymentRequest.currency := Some "USD";
     PaymentService.PaymentRequest.paymentMethod := "card" |}.

(** [app.post('/orders')] *)
Definition createOrder (validate : CreateOrderRequest.t -> option string)
    (remote : Remote) (bus : Bus Payload) (env : Env)
    (body : CreateOrderRequest.t) (orders : gmap string Order)
  : Http.Response ResBody * gmap string Order * list (Delivery Payload) :=
  match validate body with
  | Some details => (Http.respond 400 (ErrorBody "Invalid request" details), orders, [])
  | None =>
    let userId := CreateOrderRequest.userId body in
    let items := CreateOrderRequest.items body in
    (* Step 1: the user must exist *)
    match Http.axios (getUser remote userId) with
    | Http.Rejected =>
      (Http.respond 400
         (ErrorBody "Invalid user"
            (String.append "User "
               (String.append userId " not found or user-service unavailable"))),
       orders, [])
    | Http.Resolved user =>
      (* Step 2: the total *)
      let totalAmount := calculateTotal items in
      (* Step 3: the order, pending *)
      let orderId := newOrderId env in
      let order :=
        {| id := orderId; userId := userId; items := items;
           totalAmount := totalAmount; status := "pending"; paymentId := None;
           createdAt := createdTime env; updatedAt := updatedTime env |} in
      let orders := <[orderId := order]> orders in
      (* Step 4: the payment *)
      let request := paymentRequest orderId totalAmount in
      let '(payment, order, orders) :=
        match Http.axios (postPayment remote request) with
        | Http.Resolved payment =>
          let order := set_paymentId (payment_id payment) order in
          let order :=
            set_status
              (match payment_status payment with
               | Some s => if String.eqb s "completed" then "confirmed" else "pending"
               | None => "pending"
               end) order in
          let order := set_updatedAt (paidTime env) order in
          (Some payment, order, <[orderId := order]> orders)
        | Http.Rejected =>
          (* the order stays as created *)
          (None, order, orders)
        end in
      (* Step 5: the event *)
      let '(deliveries, _) :=
        emitEvent bus (emitEnv env) EventTypes.ORDER_CREATED
          (Created {| CreatedPayload.orderId := orderId;
                      CreatedPayload.userId := userId;
                      CreatedPayload.totalAmount := totalAmount;
                      CreatedPayload.items := items;
                      CreatedPayload.status := status order;
                      CreatedPayload.paymentId := paymentId order |}) in
      (* Step 6: the answer *)
      (Http.respond 201 (CreatedBody order "Order created successfully" payment),
       orders, deliveries)
    end
  end.

Definition validStatuses : list string :=
  ["pending"; "confirmed"; "shipped"; "delivered"; "cancelled"].

(** [app.put('/orders/:id/status')] *)
Definition updateStatus (bus : Bus Payload) (env : UpdateEnv)
    (id : string) (status : string) (orders : gmap string Order)
  : Http.Response ResBody * gmap string Order * list (Delivery Payload) :=
  match orders !! id with
  | None => (Http.respond 404 (ErrorBody "Order not found" id), orders, [])
  | Some order =>
    if negb (bool_decide (status ∈ validStatuses)) then
      (Http.respond 400 (InvalidStatusBody "Invalid status" validStatuses), orders, [])
    else
      let order := set_status status order in
      let order := set_updatedAt (statusTime env) order in
      let orders := <[id := order]> orders in
      let '(deliveries, _) :=
        emitEvent bus (updateEmitEnv env) EventTypes.ORDER_UPDATED
          (Updated {| UpdatedPayload.orderId := id;
                      UpdatedPayload.userId := userId order;
                      UpdatedPayload.status := status;
                      UpdatedPayload.previousStatus := OrderService.status order |}) in
      (Http.respond 200 (OrderBody order "Status updated successfully"),
       orders, deliveries)
  end.

End OrderService.

(** ** notification-service *)

Module NotificationService.

Record Notification : Type := {
  id : string;
  userId : string;
  type : string;
  subject : string;
  message : string;
  status : string;
  createdAt : string;
  sentAt : option string
}.

Definition set_status (s : string) (n : Notification) : Notification :=
  {| id := id n; userId := userId n; type := type n; subject := subject n;
     message := message n; status := s; createdAt := createdAt n; sentAt := sentAt n |}.

Definition set_sentAt (t : option string) (n : Notification) : Notification :=
  {| id := id n; userId := userId n; type := type n; subject := subject n;
     message := message n; status := status n; createdAt := createdAt n; sentAt := t |}.

(** The body of [POST /notify]. *)
Module NotificationRequest.
Record t : Type := {
  userId : string;
  type : string;
  subject : string;
  message : string
}.
End NotificationRequest.

(** Modelled from the spec: [schemas.NotificationRequestSchema] of the
    shared-contracts package, not among the sources: the channel is one of
    email, sms, push. *)
Definition NotificationRequestSchema (body : NotificationRequest.t) : option string :=
  if bool_decide (NotificationRequest.type body ∈ ["email"; "sms"; "push"])
  then None else Some "ValidationError".

Inductive ResBody : Type :=
| ErrorBody (error : string) (detail : string)
| NotificationBody (notification : Notification) (message : string).

(** The result of [sendNotification]. *)
Record SendResult : Type := {
  success : bool;
  resultSentAt : option string;
  resultError : option string
}.

(** What [POST /notify] draws from outside. *)
Record Env : Type := {
  newNotificationId : string;  (* generateNotificationId() *)
  createdTime : string;        (* the clock at creation *)
  random : float;              (* Math.random() in sendNotification *)
  sentTime : string            (* the clock at delivery *)
}.

(** [sendNotification]: the delivery succeeds when [Math.random() > 0.05]. *)
Definition sendNotification (env : Env) (type userId subject message : string)
  : SendResult :=
  let success := PrimFloat.ltb 0.05 (random env) in
  if success then
    {| success := true; resultSentAt := Some (sentTime env); resultError := None |}
  else
    {| success := false; resultSentAt := None; resultError := Some "Failed to deliver" |}.

(** [fetchUser]: the data of the answer, or [null]. *)
Definition fetchUser (getUser : string -> Http.Outcome UserService.ResBody)
    (userId : string) : option UserService.ResBody :=
  match Http.axios (getUser userId) with
  | Http.Resolved data => Some data
  | Http.Rejected => None
  end.

(** [app.post('/notify')] *)
Definition notify (validate : NotificationRequest.t -> option string)
    (getUser : string -> Http.Outcome UserService.ResBody) (env : Env)
    (body : NotificationRequest.t) (notifications : gmap string Notification)
  : Http.Response ResBody * gmap string Notification :=
  match validate body with
  | Some details =>
    (Http.respond 400 (ErrorBody "Invalid request" details), notifications)
  | None =>
    let userId := NotificationRequest.userId body in
    let type := NotificationRequest.type body in
    let subject := NotificationRequest.subject body in
    let message := NotificationRequest.message body in
    match fetchUser getUser userId with
    | None => (Http.respond 404 (ErrorBody "User not found" userId), notifications)
    | Some user =>
      let notificationId := newNotificationId env in
      let notification :=
        {| id := notificationId; userId := userId; type := type; subject := subject;
           message := message; status := "pending";
           createdAt := createdTime env; sentAt := None |} in
      let notifications := <[notificationId := notification]> notifications in
      let result := sendNotification env type userId subject message in
      let notification :=
        set_status (if success result then "sent" else "failed") notification in
      let notification := set_sentAt (resultSentAt result) notification in
      let notifications := <[notificationId := notification]> notifications in
      (Http.respond 201
         (NotificationBody notification
            (if success result then "Notification sent successfully"
             else "Failed to send notification")),
       notifications)
    end
  end.

End NotificationService.

(** ** The remote services as the callers reach them *)

(** The user service answering from its store, its answer reaching the
    caller within the caller's timeout. *)
Definition userServiceOver (users : gmap string UserService.User)
  : string -> Http.Outcome UserService.ResBody :=
  fun id => Http.Responded (UserService.getUser id users).

(** The payment service answering a request from its store, its answer
    reaching the caller within the caller's timeout (the answer is sent only
    after the processing delay and the two posts of the event), and the
    amount being a finite number, which JSON carries as it is. *)
Definition paymentServiceOver
    (validate : PaymentService.PaymentRequest.t -> option string)
    (bus : Contracts.Bus PaymentService.Payload) (env : PaymentService.Env)
    (payments : gmap string PaymentService.Payment)
  : PaymentService.PaymentRequest.t -> Http.Outcome PaymentService.ResBody :=
  fun request =>
    Http.Responded (PaymentService.createPayment validate bus env request payments).1.1.

(** ** The design document's vocabulary *)

Module Design.
Import Contracts.

(** The order state machine of the design document: pending, confirmed,
    shipped, delivered in that order, and cancelled from pending or
    confirmed only. *)
Definition allowedTransition (from to : string) : bool :=
  bool_decide ((from, to) ∈ [ ("pending", "confirmed");
                              ("confirmed", "shipped");
                              ("shipped", "delivered");
                              ("pending", "cancelled");
                              ("confirmed", "cancelled") ]).

(** The price of one line, and the sum of the lines taken in order. *)
Definition lineTotal (item : OrderService.OrderItem) : float :=
  (OrderService.quantity item * OrderService.unitPrice item)%float.

Definition sumOfLineTotals (items : list OrderService.OrderItem) : float :=
  fold_left PrimFloat.add (map lineTotal items) 0%float.

(** The order as step 3 of [POST /orders] persists it. *)
Definition createdOrder (env : OrderService.Env)
    (body : OrderService.CreateOrderRequest.t) : OrderService.Order :=
  {| OrderService.id := OrderService.newOrderId env;
     OrderService.userId := OrderService.CreateOrderRequest.userId body;
     OrderService.items := OrderService.CreateOrderRequest.items body;
     OrderService.totalAmount :=
       OrderService.calculateTotal (OrderService.CreateOrderRequest.items body);
     OrderService.status := "pending";
     OrderService.paymentId := None;
     OrderService.createdAt := OrderService.createdTime env;
     OrderService.updatedAt := OrderService.updatedTime env |}.

(** The authorization request that step 4 of [POST /orders] sends. *)
Definition authorizationRequest (env : OrderService.Env)
    (body : OrderService.CreateOrderRequest.t) : PaymentService.PaymentRequest.t :=
  OrderService.paymentRequest (OrderService.newOrderId env)
    (OrderService.calculateTotal (OrderService.CreateOrderRequest.items body)).

(** The order after step 4 took the data of a resolved payment call. *)
Definition paidOrder (env : OrderService.Env)
    (body : OrderService.CreateOrderRequest.t) (payment : PaymentService.ResBody)
  : OrderService.Order :=
  OrderService.set_updatedAt (OrderService.paidTime env)
    (OrderService.set_status
       (match OrderService.payment_status payment with
        | Some s => if String.eqb s "completed" then "confirmed" else "pending"
        | None => "pending"
        end)
       (OrderService.set_paymentId (OrderService.payment_id payment)
          (createdOrder env body))).

(** The payment record as a refund leaves it. *)
Definition refunded (env : PaymentService.RefundEnv) (payment : PaymentService.Payment)
  : PaymentService.Payment :=
  PaymentService.set_refundTransactionId (Some (PaymentService.refundTransaction env))
    (PaymentService.set_refundedAt (Some (PaymentService.refundedTime env))
       (PaymentService.set_status "refunded" payment)).

(** The identity lookup fails: the user is unknown to the user service,
    the call times out, or the service cannot be reached. *)
Inductive identityLookupFails (userId : string)
  : Http.Outcome UserService.ResBody -> Prop :=
| user_not_found (users : gmap string UserService.User) :
    users !! userId = None ->
    identityLookupFails userId (userServiceOver users userId)
| user_timeout : identityLookupFails userId Http.TimedOut
| user_transport_error : identityLookupFails userId Http.Unreachable.

(** The payment authorization fails: the payment service declines the
    request it accepted, the call times out, or the service cannot be
    reached. *)
Inductive authorizationFails (request : PaymentService.PaymentRequest.t)
  : Http.Outcome PaymentService.ResBody -> Prop :=
| payment_declined validate bus (env : PaymentService.Env) payments :
    validate request = None ->
    PrimFloat.ltb 0.1 (PaymentService.random env) = false ->
    authorizationFails request (paymentServiceOver validate bus env payments request)
| payment_timeout : authorizationFails request Http.TimedOut
| payment_transport_error : authorizationFails request Http.Unreachable.

End Design.

(** ** Sample inputs *)

Module Sample.
Import Contracts.

(** Two of the seeded users. *)
Definition john : UserService.User :=
  {| UserService.id := "usr-001"; UserService.username := "john_doe";
     UserService.email := "john@example.com"; UserService.fullName := "John Doe";
     UserService.phone := Some "+1-555-0101";
     UserService.address :=
       Some {| UserService.street := "123 Main St"; UserService.city := "New York";
               UserService.zipCode := "10001"; UserService.country := "USA" |};
     UserService.createdAt := "2024-01-15T10:30:00Z";
     UserService.lastLoginAt := Some "2024-01-20T14:30:00Z" |}.

Definition jane : UserService.User :=
  {| UserService.id := "usr-002"; UserService.username := "jane_smith";
     UserService.email := "jane@example.com"; UserService.fullName := "Jane Smith";
     UserService.phone := Some "+1-555-0102";
     UserService.address :=
       Some {| UserService.street := "456 Oak Ave"; UserService.city := "Los Angeles";
               UserService.zipCode := "90001"; UserService.country := "USA" |};
     UserService.createdAt := "2024-01-16T11:00:00Z";
     UserService.lastLoginAt := Some "2024-01-19T09:15:00Z" |}.

(** No subscriber can be reached. *)
Definition busDown {P} : Bus P := fun _ _ => Http.Unreachable.

(** Only the metrics collector answers. *)
Definition busHalf {P} : Bus P := fun s e =>
  match s with
  | NOTIFICATION_SERVICE => Http.Unreachable
  | ANALYTICS_SERVICE =>
    Http.Responded (Http.respond 200 {| received := true; ackEventType := eventType e |})
  end.

Definition emitEnv : EmitEnv := {| newEventId := "evt-lx3k9a2b7"; eventTime := "2024-01-22T09:00:02.000Z" |}.

Definition updateEnv : OrderService.UpdateEnv :=
  {| OrderService.statusTime := "2024-01-22T09:00:01.000Z";
     OrderService.updateEmitEnv := emitEnv |}.

Definition orderEnv : OrderService.Env :=
  {| OrderService.newOrderId := "ord-lx3k9a1c4";
     OrderService.createdTime := "2024-01-22T09:00:00.000Z";
     OrderService.updatedTime := "2024-01-22T09:00:00.001Z";
     OrderService.paidTime := "2024-01-22T09:00:01.100Z";
     OrderService.emitEnv := emitEnv |}.

(** The payment service's draw: above 0.1 the authorization succeeds. *)
Definition paymentEnv (random : float) : PaymentService.Env :=
  {| PaymentService.newPaymentId := "pay-lx3k9a5d1";
     PaymentService.createdTime := "2024-01-22T09:00:00.050Z";
     PaymentService.random := random;
     PaymentService.newTransactionId := "txn_8f3k2j9d0s1a7";
     PaymentService.processedTime := "2024-01-22T09:00:01.050Z";
     PaymentService.emitEnv := emitEnv |}.

Definition refundEnv : PaymentService.RefundEnv :=
  {| PaymentService.refundedTime := "2024-01-22T10:00:00.500Z";
     PaymentService.refundTransaction := "txn_5h2m8q4w6e0r3";
     PaymentService.refundEmitEnv := emitEnv |}.

(** A second refund request, served a little later. *)
Definition refundEnvLate : PaymentService.RefundEnv :=
  {| PaymentService.refundedTime := "2024-01-22T10:00:00.800Z";
     PaymentService.refundTransaction := "txn_9c4v1b7n3x5z8";
     PaymentService.refundEmitEnv :=
       {| newEventId := "evt-lx3k9d4g6"; eventTime := "2024-01-22T10:00:00.801Z" |} |}.

Definition notifyEnv (random : float) : NotificationService.Env :=
  {| NotificationService.newNotificationId := "ntf-lx3k9b0e2";
     NotificationService.createdTime := "2024-01-22T11:00:00.000Z";
     NotificationService.random := random;
     NotificationService.sentTime := "2024-01-22T11:00:00.500Z" |}.

(** The two services behind [POST /orders], both up, the payment service
    drawing [random]. *)
Definition remote (random : float) : OrderService.Remote :=
  {| OrderService.getUser := userServiceOver UserService.users0;
     OrderService.postPayment :=
       paymentServiceOver PaymentService.PaymentRequestSchema busDown
         (paymentEnv random) PaymentService.payments0 |}.

(** The payment service does not answer in time. *)
Definition remoteSlowPayment : OrderService.Remote :=
  {| OrderService.getUser := userServiceOver UserService.users0;
     OrderService.postPayment := fun _ => Http.TimedOut |}.

(** The order of the design document's scenario, for a given user. *)
Definition orderRequest (userId : string) : OrderService.CreateOrderRequest.t :=
  {| OrderService.CreateOrderRequest.userId := userId;
     OrderService.CreateOrderRequest.items :=
       [ {| OrderService.productId := "p1"; OrderService.quantity := 2;
            OrderService.unitPrice := 29.99 |} ] |}.

Definition notifyRequest : NotificationService.NotificationRequest.t :=
  {| NotificationService.NotificationRequest.userId := "usr-001";
     NotificationService.NotificationRequest.type := "email";
     NotificationService.NotificationRequest.subject := "Hello";
     NotificationService.NotificationRequest.message := "Your parcel is on its way" |}.

End Sample.

(** ** Reading the stores *)

Module OrderQueries.

Inductive ResBody : Type :=
| FoundBody (order : OrderService.Order)
| NotFoundBody (error : string) (orderId : string)
| HealthBody (service status : string) (orderCount : nat) (timestamp : string).

(** [app.get('/orders/:id')] of the order service *)
Definition getOrder (id : string) (orders : gmap string OrderService.Order)
  : Http.Response ResBody :=
  match orders !! id with
  | None => Http.respond 404 (NotFoundBody "Order not found" id)
  | Some order => Http.respond 200 (FoundBody order)
  end.

(** [app.get('/health')] of the order service: [orderCount] is [orders.size]. *)
Definition health (now : string) (orders : gmap string OrderService.Order)
  : Http.Response ResBody :=
  Http.respond 200 (HealthBody "order-service" "healthy" (size orders) now).

End OrderQueries.

Module PaymentQueries.

(** The [stats] object of the health answer. *)
Record Stats : Type := {
  total : nat;
  completed : nat;
  failed : nat;
  pending : nat
}.

Inductive ResBody : Type :=
| FoundBody (payment : PaymentService.Payment)
| NotFoundBody (error : string) (paymentId : string)
| HealthBody (service status : string) (stats : Stats) (timestamp : string).

(** [app.get('/payments/:id')] *)
Definition getPayment (id : string) (payments : gmap string PaymentService.Payment)
  : Http.Response ResBody :=
  match payments !! id with
  | None => Http.respond 404 (NotFoundBody "Payment not found" id)
  | Some payment => Http.respond 200 (FoundBody payment)
  end.

(** [Array.from(payments.values())]: the stored records.  The map does not
    keep the order of insertion; only lengths are taken of this list. *)
Definition allPayments (payments : gmap string PaymentService.Payment)
  : list PaymentService.Payment :=
  (map_to_list payments).*2.

(** [allPayments.filter(p => p.status === s).length] *)
Definition countStatus (s : string) (allPayments : list PaymentService.Payment) : nat :=
  length (filter (fun p => PaymentService.status p = s) allPayments).

(** [app.get('/health')] of the payment service *)
Definition health (now : string) (payments : gmap string PaymentService.Payment)
  : Http.Response ResBody :=
  let allPayments := allPayments payments in
  let completedCount := countStatus "completed" allPayments in
  let failedCount := countStatus "failed" allPayments in
  let pendingCount := countStatus "pending" allPayments in
  Http.respond 200
    (HealthBody "payment-service" "healthy"
       {| total := length allPayments; completed := completedCount;
          failed := failedCount; pending := pendingCount |}
       now).

(** The [stats] of the health answer, whatever the clock. *)
Definition stats (payments : gmap string PaymentService.Payment) : Stats :=
  {| total := length (allPayments payments);
     completed := countStatus "completed" (allPayments payments);
     failed := countStatus "failed" (allPayments payments);
     pending := countStatus "pending" (allPayments payments) |}.

End PaymentQueries.

Module NotificationQueries.

Inductive ResBody : Type :=
| FoundBody (notification : NotificationService.Notification)
| NotFoundBody (error : string) (notificationId : string).

(** [app.get('/notifications/:id')] *)
Definition getNotification (id : string)
    (notifications : gmap string NotificationService.Notification)
  : Http.Response ResBody :=
  match notifications !! id with
  | None => Http.respond 404 (NotFoundBody "Notification not found" id)
  | Some notification => Http.respond 200 (FoundBody notification)
  end.

End NotificationQueries.

(** ** analytics-service: the metrics collector behind [POST /events] *)

Module AnalyticsService.

(** The payload of an incoming event: one of the shapes that the order,
    payment and user services send. *)
Inductive Payload : Type :=
| FromOrders (p : OrderService.Payload)
| FromPayments (p : PaymentService.Payload)
| FromUsers (userId username email : string).

(** The body of [POST /events].  Nothing but [eventType] and [timestamp] is
    checked, so every property may be missing. *)
Record Incoming : Type := {
  eventId : option string;
  eventType : option string;
  timestamp : option string;
  payload : option Payload
}.

(** [{...event, receivedAt}] *)
Record StoredEvent : Type := { event : Incoming; receivedAt : string }.

Record Metric : Type := {
  id : string;
  service : string;
  metric : string;
  value : float;
  metricTimestamp : string;
  tags : list (string * option string)
}.

(** The two arrays of the service, oldest entry first. *)
Record State : Type := { metrics : list Metric; events : list StoredEvent }.

(** What [POST /events] draws from outside. *)
Record Env : Type := {
  receivedTime : string;   (* the clock in processEvent *)
  newMetricId : string;    (* generateMetricId() *)
  metricTime : string;     (* the clock in recordMetric *)
  ackTime : string         (* the clock of the answer *)
}.

(** A number as JSON carries it: [null] when it is not finite. *)
Definition jsonNumber (x : float) : option float :=
  if PrimFloat.is_finite x then Some x else None.

(** Property reads on a payload: [undefined] when its shape has no such
    property. *)
Definition totalAmount (p : Payload) : option float :=
  match p with
  | FromOrders (OrderService.Created c) =>
    jsonNumber (OrderService.CreatedPayload.totalAmount c)
  | _ => None
  end.

Definition amount (p : Payload) : option float :=
  match p with
  | FromPayments (PaymentService.Processed c) =>
    jsonNumber (PaymentService.ProcessedPayload.amount c)
  | FromPayments (PaymentService.Refund c) =>
    jsonNumber (PaymentService.RefundPayload.amount c)
  | _ => None
  end.

Definition orderId (p : Payload) : option string :=
  match p with
  | FromOrders (OrderService.Created c) => Some (OrderService.CreatedPayload.orderId c)
  | FromOrders (OrderService.Updated c) => Some (OrderService.UpdatedPayload.orderId c)
  | FromPayments (PaymentService.Processed c) =>
    Some (PaymentService.ProcessedPayload.orderId c)
  | FromPayments (PaymentService.Refund c) => Some (PaymentService.RefundPayload.orderId c)
  | FromUsers _ _ _ => None
  end.

Definition userId (p : Payload) : option string :=
  match p with
  | FromOrders (OrderService.Created c) => Some (OrderService.CreatedPayload.userId c)
  | FromOrders (OrderService.Updated c) => Some (OrderService.UpdatedPayload.userId c)
  | FromPayments _ => None
  | FromUsers userId _ _ => Some userId
  end.

Definition paymentId (p : Payload) : option string :=
  match p with
  | FromOrders (OrderService.Created c) => OrderService.CreatedPayload.paymentId c
  | FromOrders (OrderService.Updated _) => None
  | FromPayments (PaymentService.Processed c) =>
    Some (PaymentService.ProcessedPayload.paymentId c)
  | FromPayments (PaymentService.Refund c) => Some (PaymentService.RefundPayload.paymentId c)
  | FromUsers _ _ _ => None
  end.

Definition status (p : Payload) : option string :=
  match p with
  | FromOrders (OrderService.Created c) => Some (OrderService.CreatedPayload.status c)
  | FromOrders (OrderService.Updated c) => Some (OrderService.UpdatedPayload.status c)
  | FromPayments (PaymentService.Processed c) =>
    Some (PaymentService.ProcessedPayload.status c)
  | _ => None
  end.

(** [x || 1] on a number that may be missing: 1 when [x] is [undefined],
    [null], zero or NaN. *)
Definition orOne (x : option float) : float :=
  match x with
  | Some v => if PrimFloat.is_zero v || PrimFloat.is_nan v then 1%float else v
  | None => 1%float
  end.

(** [recordMetric]: one entry pushed to [metrics]. *)
Definition recordMetric (env : Env) (service metric : string) (value : float)
    (tags : list (string * option string)) (state : State) : State :=
  let metricEntry :=
    {| id := newMetricId env; service := service; metric := metric; value := value;
       metricTimestamp := metricTime env; tags := tags |} in
  {| metrics := metrics state ++ [metricEntry]; events := events state |}.

(** How a call ends: it returns, or it throws a [TypeError]. *)
Inductive Completion : Type := Returned | Threw.

(** [processEvent]: the event is stored, then the switch on its type reads
    the payload; reading a property of a missing payload throws. *)
Definition processEvent (env : Env) (event : Incoming) (state : State)
  : Completion * State :=
  let state :=
    {| metrics := metrics state;
       events := events state ++ [ {| event := event; receivedAt := receivedTime env |} ] |} in
  let kind := default "" (eventType event) in
  if String.eqb kind Contracts.EventTypes.ORDER_CREATED then
    match payload event with
    | None => (Threw, state)
    | Some p =>
      (Returned,
       recordMetric env "order-service" "orders_created" (orOne (totalAmount p))
         [("orderId", orderId p); ("userId", userId p)] state)
    end
  else if String.eqb kind Contracts.EventTypes.PAYMENT_PROCESSED then
    match payload event with
    | None => (Threw, state)
    | Some p =>
      (Returned,
       recordMetric env "payment-service"
         (match status p with
          | Some s => if String.eqb s "completed"
                      then "payments_successful" else "payments_failed"
          | None => "payments_failed"
          end)
         (orOne (amount p))
         [("paymentId", paymentId p); ("orderId", orderId p)] state)
    end
  else if String.eqb kind Contracts.EventTypes.USER_CREATED then
    match payload event with
    | None => (Threw, state)
    | Some p =>
      (Returned,
       recordMetric env "user-service" "users_created" 1%float
         [("userId", userId p)] state)
    end
  else (Returned, state).

Inductive ResBody : Type :=
| InvalidEventBody (error : string) (required : list string)
| AckBody (received : bool) (eventType : string) (timestamp : string)
| InternalErrorBody (error : string).

(** [!x] on a string property that may be missing. *)
Definition missing (x : option string) : bool :=
  match x with
  | Some s => String.eqb s ""
  | None => true
  end.

(** [app.post('/events')]; a throw in the handler reaches the error
    middleware, which answers 500 (the text of the error's message is left
    out of the body). *)
Definition ingest (env : Env) (event : Incoming) (state : State)
  : Http.Response ResBody * State :=
  if missing (eventType event) || missing (timestamp event) then
    (Http.respond 400
       (InvalidEventBody "Invalid event structure" ["eventType"; "timestamp"; "payload"]),
     state)
  else
    match processEvent env event state with
    | (Threw, state) => (Http.respond 500 (InternalErrorBody "Internal server error"), state)
    | (Returned, state) =>
      (Http.respond 200 (AckBody true (default "" (eventType event)) (ackTime env)), state)
    end.

(** The JSON that [emitEvent] of the order service posts, as it arrives. *)
Definition ofOrderEvent (e : Contracts.Event OrderService.Payload) : Incoming :=
  {| eventId := Some (Contracts.eventId e);
     eventType := Some (Contracts.eventType e);
     timestamp := Some (Contracts.timestamp e);
     payload := Some (FromOrders (Contracts.payload e)) |}.

(** The JSON that [emitEvent] of the payment service posts, as it arrives. *)
Definition ofPaymentEvent (e : Contracts.Event PaymentService.Payload) : Incoming :=
  {| eventId := Some (Contracts.eventId e);
     eventType := Some (Contracts.eventType e);
     timestamp := Some (Contracts.timestamp e);
     payload := Some (FromPayments (Contracts.payload e)) |}.

End AnalyticsService.

(** ** What the stores keep *)

Module Invariants.

(** Every order is stored under its own id. *)
Definition ordersKeyed (orders : gmap string OrderService.Order) : Prop :=
  map_Forall (fun key order => OrderService.id order = key) orders.

(** A payment at rest: completed with a transaction reference, failed with
    a reason, or refunded with both references. *)
Definition settled (p : PaymentService.Payment) : Prop :=
  (PaymentService.status p = "completed"
   /\ is_Some (PaymentService.transactionId p)
   /\ PaymentService.error p = None
   /\ PaymentService.refundTransactionId p = None)
  \/ (PaymentService.status p = "failed"
      /\ PaymentService.transactionId p = None
      /\ is_Some (PaymentService.error p)
      /\ PaymentService.refundTransactionId p = None)
  \/ (PaymentService.status p = "refunded"
      /\ is_Some (PaymentService.transactionId p)
      /\ PaymentService.error p = None
      /\ is_Some (PaymentService.refundTransactionId p)).

(** Every payment is stored under its own id and is at rest. *)
Definition paymentsSound (payments : gmap string PaymentService.Payment) : Prop :=
  map_Forall (fun key p => PaymentService.id p = key /\ settled p) payments.

End Invariants.

(** * Properties *)

(** ** Calls that axios rejects *)

Lemma validateStatus_2xx (c : nat) :
  Http.validateStatus c = true <-> (200 <= c < 300)%nat.
Proof.
  unfold Http.validateStatus.
  rewrite andb_true_iff, Nat.leb_le, Nat.ltb_lt. reflexivity.
Qed.

(** An unknown user is answered with 404, which axios rejects. *)
Lemma unknown_user_rejected users userId :
  users !! userId = None ->
  Http.axios (userServiceOver users userId) = Http.Rejected.
Proof.
  intros Hnone. unfold userServiceOver, UserService.getUser.
  rewrite Hnone. reflexivity.
Qed.

Lemma identityLookupFails_rejected userId o :
  Design.identityLookupFails userId o -> Http.axios o = Http.Rejected.
Proof.
  destruct 1 as [users Hnone | | ]; [ | reflexivity | reflexivity ].
  by apply unknown_user_rejected.
Qed.

(** A declined payment is answered with 402, which axios rejects. *)
Lemma declined_payment_402 validate bus env request payments :
  validate request = None ->
  PrimFloat.ltb 0.1 (PaymentService.random env) = false ->
  Http.code (PaymentService.createPayment validate bus env request payments).1.1 = 402.
Proof.
  intros Hvalid Hdraw.
  unfold PaymentService.createPayment, PaymentService.processPayment.
  rewrite Hvalid, Hdraw. reflexivity.
Qed.

Lemma authorizationFails_rejected request o :
  Design.authorizationFails request o -> Http.axios o = Http.Rejected.
Proof.
  destruct 1 as [validate bus env payments Hvalid Hdraw | | ];
    [ | reflexivity | reflexivity ].
  unfold paymentServiceOver, Http.axios.
  rewrite (declined_payment_402 _ _ _ _ _ Hvalid Hdraw). reflexivity.
Qed.

(** An accepted payment is answered with 201 and a completed payment. *)
Lemma accepted_payment_201 validate bus env request payments :
  validate request = None ->
  PrimFloat.ltb 0.1 (PaymentService.random env) = true ->
  exists response,
    (PaymentService.createPayment validate bus env request payments).1.1
      = Http.respond 201 (PaymentService.PaymentBody response)
    /\ PaymentService.PaymentResponse.status response = "completed"
    /\ PaymentService.PaymentResponse.id response = PaymentService.newPaymentId env.
Proof.
  intros Hvalid Hdraw.
  unfold PaymentService.createPayment, PaymentService.processPayment.
  rewrite Hvalid, Hdraw. cbn. eexists. split; [ reflexivity | split; reflexivity ].
Qed.

(** ** Order creation *)

Section CreateOrder.
Import OrderService.

Variable validate : CreateOrderRequest.t -> option string.
Variable remote : Remote.
Variable bus : Contracts.Bus Payload.
Variable env : Env.
Variable body : CreateOrderRequest.t.
Variable orders : gmap string Order.

(** When the user lookup is rejected, nothing happens to the store. *)
Lemma createOrder_user_rejected :
  validate body = None ->
  Http.axios (getUser remote (CreateOrderRequest.userId body)) = Http.Rejected ->
  createOrder validate remote bus env body orders
  = (Http.respond 400
       (ErrorBody "Invalid user"
          (String.append "User "
             (String.append (CreateOrderRequest.userId body)
                " not found or user-service unavailable"))),
     orders, []).
Proof.
  intros Hvalid Huser. unfold createOrder.
  rewrite Hvalid, Huser. reflexivity.
Qed.

(** When the payment call is rejected, the order stays as created. *)
Lemma createOrder_payment_rejected user :
  validate body = None ->
  Http.axios (getUser remote (CreateOrderRequest.userId body)) = Http.Resolved user ->
  Http.axios (postPayment remote (Design.authorizationRequest env body)) = Http.Rejected ->
  (createOrder validate remote bus env body orders).1
  = (Http.respond 201
       (CreatedBody (Design.createdOrder env body) "Order created successfully" None),
     <[newOrderId env := Design.createdOrder env body]> orders).
Proof.
  intros Hvalid Huser Hpay. unfold createOrder.
  rewrite Hvalid, Huser.
  unfold Design.authorizationRequest in Hpay. rewrite Hpay. reflexivity.
Qed.

(** When the payment call resolves, the order takes the payment's id and
    a status derived from the payment's. *)
Lemma createOrder_payment_resolved user payment :
  validate body = None ->
  Http.axios (getUser remote (CreateOrderRequest.userId body)) = Http.Resolved user ->
  Http.axios (postPayment remote (Design.authorizationRequest env body))
    = Http.Resolved payment ->
  (createOrder validate remote bus env body orders).1
  = (Http.respond 201
       (CreatedBody (Design.paidOrder env body payment) "Order created successfully"
          (Some payment)),
     <[newOrderId env := Design.paidOrder env body payment]> orders).
Proof.
  intros Hvalid Huser Hpay. unfold createOrder.
  rewrite Hvalid, Huser.
  unfold Design.authorizationRequest in Hpay. rewrite Hpay. cbn.
  rewrite insert_insert_eq. reflexivity.
Qed.

End CreateOrder.

(** [calculateTotal] adds the line totals in the order of the items. *)
Lemma calculateTotal_from (items : list OrderService.OrderItem) (start : float) :
  fold_left (fun sum item =>
               (sum + OrderService.quantity item * OrderService.unitPrice item)%float)
            items start
  = fold_left PrimFloat.add (map Design.lineTotal items) start.
Proof.
  revert start. induction items as [ | item items IH ]; intros start.
  - reflexivity.
  - cbn [fold_left map]. rewrite IH. reflexivity.
Qed.

Lemma calculateTotal_sum (items : list OrderService.OrderItem) :
  OrderService.calculateTotal items = Design.sumOfLineTotals items.
Proof. apply calculateTotal_from. Qed.

(** C3: when the identity lookup fails (unknown user, timeout, transport
    error), order creation answers 400 "Invalid user" and the order store is
    left as it was, so its size is unchanged. *)
Theorem createOrder_identity_failure
    validate remote bus env body (orders : gmap string OrderService.Order) :
  validate body = None ->
  Design.identityLookupFails
    (OrderService.CreateOrderRequest.userId body)
    (OrderService.getUser remote (OrderService.CreateOrderRequest.userId body)) ->
  let '(res, orders', deliveries) :=
    OrderService.createOrder validate remote bus env body orders in
  Http.code res = 400
  /\ (exists message, Http.body res = OrderService.ErrorBody "Invalid user" message)
  /\ orders' = orders
  /\ size orders' = size orders
  /\ deliveries = [].
Proof.
  intros Hvalid Hfails.
  apply identityLookupFails_rejected in Hfails.
  rewrite (createOrder_user_rejected validate remote bus env body orders Hvalid Hfails).
  repeat split; eauto.
Qed.

Lemma createOrder_identity_failure_witness :
  let '(res, orders', deliveries) :=
    OrderService.createOrder OrderService.CreateOrderRequestSchema
      (Sample.remote 0.5) Sample.busDown Sample.orderEnv
      (Sample.orderRequest "usr-999") OrderService.orders0 in
  Http.code res = 400
  /\ (exists message, Http.body res = OrderService.ErrorBody "Invalid user" message)
  /\ orders' = OrderService.orders0
  /\ size orders' = size OrderService.orders0
  /\ deliveries = [].
Proof.
  apply (createOrder_identity_failure OrderService.CreateOrderRequestSchema
           (Sample.remote 0.5) Sample.busDown Sample.orderEnv
           (Sample.orderRequest "usr-999") OrderService.orders0).
  - reflexivity.
  - apply (Design.user_not_found "usr-999" UserService.users0). reflexivity.
Defined.

(** C2: when the payment authorization fails (declined, timeout, transport
    error), order creation still answers 201 with the order of the request
    and no payment, and that order, as it was created, is in the store under
    the new id, nothing else changed, with status pending and no payment
    id. *)
Theorem createOrder_authorization_failure
    validate remote bus env body (orders : gmap string OrderService.Order) user :
  validate body = None ->
  Http.axios (OrderService.getUser remote (OrderService.CreateOrderRequest.userId body))
    = Http.Resolved user ->
  Design.authorizationFails
    (Design.authorizationRequest env body)
    (OrderService.postPayment remote (Design.authorizationRequest env body)) ->
  let '(res, orders', _) :=
    OrderService.createOrder validate remote bus env body orders in
  let order :=
    {| OrderService.id := OrderService.newOrderId env;
       OrderService.userId := OrderService.CreateOrderRequest.userId body;
       OrderService.items := OrderService.CreateOrderRequest.items body;
       OrderService.totalAmount :=
         OrderService.calculateTotal (OrderService.CreateOrderRequest.items body);
       OrderService.status := "pending";
       OrderService.paymentId := None;
       OrderService.createdAt := OrderService.createdTime env;
       OrderService.updatedAt := OrderService.updatedTime env |} in
  res = Http.respond 201 (OrderService.CreatedBody order "Order created successfully" None)
  /\ orders' = <[OrderService.newOrderId env := order]> orders
  /\ orders' !! OrderService.newOrderId env = Some order
  /\ OrderService.status order = "pending"
  /\ OrderService.paymentId order = None.
Proof.
  intros Hvalid Huser Hfails.
  apply authorizationFails_rejected in Hfails.
  pose proof (createOrder_payment_rejected validate remote bus env body orders user
                Hvalid Huser Hfails) as Hrun.
  destruct (OrderService.createOrder validate remote bus env body orders)
    as [[res orders'] deliveries].
  cbn in Hrun. injection Hrun as -> ->.
  split; [ reflexivity | ]. split; [ reflexivity | ].
  split; [ apply lookup_insert_eq | ]. split; reflexivity.
Qed.

Lemma createOrder_authorization_failure_witness :
  let '(res, orders', _) :=
    OrderService.createOrder OrderService.CreateOrderRequestSchema
      (Sample.remote 0.05) Sample.busDown Sample.orderEnv
      (Sample.orderRequest "usr-001") OrderService.orders0 in
  let order :=
    {| OrderService.id := "ord-lx3k9a1c4";
       OrderService.userId := "usr-001";
       OrderService.items :=
         [ {| OrderService.productId := "p1"; OrderService.quantity := 2;
              OrderService.unitPrice := 29.99 |} ];
       OrderService.totalAmount := 59.98;
       OrderService.status := "pending";
       OrderService.paymentId := None;
       OrderService.createdAt := "2024-01-22T09:00:00.000Z";
       OrderService.updatedAt := "2024-01-22T09:00:00.001Z" |} in
  res = Http.respond 201 (OrderService.CreatedBody order "Order created successfully" None)
  /\ orders' = <["ord-lx3k9a1c4" := order]> OrderService.orders0
  /\ orders' !! "ord-lx3k9a1c4" = Some order
  /\ OrderService.status order = "pending"
  /\ OrderService.paymentId order = None.
Proof.
  apply (createOrder_authorization_failure OrderService.CreateOrderRequestSchema
           (Sample.remote 0.05) Sample.busDown Sample.orderEnv
           (Sample.orderRequest "usr-001") OrderService.orders0
           (UserService.UserBody Sample.john)).
  - reflexivity.
  - reflexivity.
  - apply (Design.payment_declined _ PaymentService.PaymentRequestSchema
             Sample.busDown (Sample.paymentEnv 0.05) PaymentService.payments0);
      reflexivity.
Defined.

(** C8: when the payment call resolves with a completed payment, the order
    answered and persisted has status confirmed and carries the id of the
    payment record returned to the caller. *)
Theorem createOrder_authorization_success
    validate remote bus env body (orders : gmap string OrderService.Order)
    user response :
  validate body = None ->
  Http.axios (OrderService.getUser remote (OrderService.CreateOrderRequest.userId body))
    = Http.Resolved user ->
  Http.axios (OrderService.postPayment remote (Design.authorizationRequest env body))
    = Http.Resolved (PaymentService.PaymentBody response) ->
  PaymentService.PaymentResponse.status response = "completed" ->
  let '(res, orders', _) :=
    OrderService.createOrder validate remote bus env body orders in
  exists order,
    res = Http.respond 201
            (OrderService.CreatedBody order "Order created successfully"
               (Some (PaymentService.PaymentBody response)))
    /\ orders' !! OrderService.newOrderId env = Some order
    /\ OrderService.status order = "confirmed"
    /\ OrderService.paymentId order = Some (PaymentService.PaymentResponse.id response).
Proof.
  intros Hvalid Huser Hpay Hcompleted.
  pose proof (createOrder_payment_resolved validate remote bus env body orders user _
                Hvalid Huser Hpay) as Hrun.
  destruct (OrderService.createOrder validate remote bus env body orders)
    as [[res orders'] deliveries].
  cbn in Hrun. injection Hrun as -> ->.
  eexists. split; [ reflexivity | ].
  split; [ apply lookup_insert_eq | ].
  cbn. rewrite Hcompleted. split; reflexivity.
Qed.

Lemma createOrder_authorization_success_witness :
  let '(res, orders', _) :=
    OrderService.createOrder OrderService.CreateOrderRequestSchema
      (Sample.remote 0.5) Sample.busHalf Sample.orderEnv
      (Sample.orderRequest "usr-001") OrderService.orders0 in
  exists order,
    res = Http.respond 201
            (OrderService.CreatedBody order "Order created successfully"
               (Some (PaymentService.PaymentBody
                  {| PaymentService.PaymentResponse.id := "pay-lx3k9a5d1";
                     PaymentService.PaymentResponse.orderId := "ord-lx3k9a1c4";
                     PaymentService.PaymentResponse.amount := 59.98;
                     PaymentService.PaymentResponse.currency := "USD";
                     PaymentService.PaymentResponse.status := "completed";
                     PaymentService.PaymentResponse.paymentMethod := "card";
                     PaymentService.PaymentResponse.transactionId :=
                       Some "txn_8f3k2j9d0s1a7";
                     PaymentService.PaymentResponse.processedAt :=
                       Some "2024-01-22T09:00:01.050Z";
                     PaymentService.PaymentResponse.error := None |})))
    /\ orders' !! "ord-lx3k9a1c4" = Some order
    /\ OrderService.status order = "confirmed"
    /\ OrderService.paymentId order = Some "pay-lx3k9a5d1".
Proof.
  apply (createOrder_authorization_success OrderService.CreateOrderRequestSchema
           (Sample.remote 0.5) Sample.busHalf Sample.orderEnv
           (Sample.orderRequest "usr-001") OrderService.orders0
           (UserService.UserBody Sample.john)
           {| PaymentService.PaymentResponse.id := "pay-lx3k9a5d1";
              PaymentService.PaymentResponse.orderId := "ord-lx3k9a1c4";
              PaymentService.PaymentResponse.amount := 59.98;
              PaymentService.PaymentResponse.currency := "USD";
              PaymentService.PaymentResponse.status := "completed";
              PaymentService.PaymentResponse.paymentMethod := "card";
              PaymentService.PaymentResponse.transactionId := Some "txn_8f3k2j9d0s1a7";
              PaymentService.PaymentResponse.processedAt :=
                Some "2024-01-22T09:00:01.050Z";
              PaymentService.PaymentResponse.error := None |});
    reflexivity.
Defined.

(** C4: for every item sequence that order creation accepts, the persisted
    order's totalAmount is the sum over the line items of quantity times
    unitPrice, whatever became of the payment; two items at 29.99 make
    59.98. *)
Theorem createOrder_total
    validate remote bus env body (orders : gmap string OrderService.Order) user :
  validate body = None ->
  OrderService.CreateOrderRequest.items body <> [] ->
  Http.axios (OrderService.getUser remote (OrderService.CreateOrderRequest.userId body))
    = Http.Resolved user ->
  let '(res, orders', _) :=
    OrderService.createOrder validate remote bus env body orders in
  (exists order,
     orders' !! OrderService.newOrderId env = Some order
     /\ OrderService.totalAmount order
        = Design.sumOfLineTotals (OrderService.CreateOrderRequest.items body)
     /\ exists payment,
          Http.body res = OrderService.CreatedBody order "Order created successfully" payment)
  /\ OrderService.calculateTotal
       [ {| OrderService.productId := "p1"; OrderService.quantity := 2;
            OrderService.unitPrice := 29.99 |} ] = 59.98%float.
Proof.
  intros Hvalid _ Huser.
  destruct (Http.axios
              (OrderService.postPayment remote (Design.authorizationRequest env body)))
    as [payment | ] eqn:Hpay.
  - pose proof (createOrder_payment_resolved validate remote bus env body orders user _
                  Hvalid Huser Hpay) as Hrun.
    destruct (OrderService.createOrder validate remote bus env body orders)
      as [[res orders'] deliveries].
    cbn in Hrun. injection Hrun as -> ->.
    split; [ | reflexivity ].
    eexists. split; [ apply lookup_insert_eq | ].
    split; [ apply calculateTotal_sum | eexists; reflexivity ].
  - pose proof (createOrder_payment_rejected validate remote bus env body orders user
                  Hvalid Huser Hpay) as Hrun.
    destruct (OrderService.createOrder validate remote bus env body orders)
      as [[res orders'] deliveries].
    cbn in Hrun. injection Hrun as -> ->.
    split; [ | reflexivity ].
    eexists. split; [ apply lookup_insert_eq | ].
    split; [ apply calculateTotal_sum | eexists; reflexivity ].
Qed.

Lemma createOrder_total_witness :
  let '(res, orders', _) :=
    OrderService.createOrder OrderService.CreateOrderRequestSchema
      Sample.remoteSlowPayment Sample.busDown Sample.orderEnv
      (Sample.orderRequest "usr-002") OrderService.orders0 in
  (exists order,
     orders' !! "ord-lx3k9a1c4" = Some order
     /\ OrderService.totalAmount order
        = Design.sumOfLineTotals
            [ {| OrderService.productId := "p1"; OrderService.quantity := 2;
                 OrderService.unitPrice := 29.99 |} ]
     /\ exists payment,
          Http.body res = OrderService.CreatedBody order "Order created successfully" payment)
  /\ OrderService.calculateTotal
       [ {| OrderService.productId := "p1"; OrderService.quantity := 2;
            OrderService.unitPrice := 29.99 |} ] = 59.98%float.
Proof.
  apply (createOrder_total OrderService.CreateOrderRequestSchema
           Sample.remoteSlowPayment Sample.busDown Sample.orderEnv
           (Sample.orderRequest "usr-002") OrderService.orders0
           (UserService.UserBody Sample.jane)).
  - reflexivity.
  - discriminate.
  - reflexivity.
Defined.

(** ** Status updates *)

Section UpdateStatus.
Import OrderService.

Variable bus : Contracts.Bus Payload.
Variable env : UpdateEnv.

(** The run of the handler on a stored order and a listed status. *)
Lemma updateStatus_listed id status (orders : gmap string Order) order :
  orders !! id = Some order ->
  status ∈ validStatuses ->
  let updated := set_updatedAt (statusTime env) (set_status status order) in
  updateStatus bus env id status orders
  = (Http.respond 200 (OrderBody updated "Status updated successfully"),
     <[id := updated]> orders,
     (emitEvent bus (updateEmitEnv env) Contracts.EventTypes.ORDER_UPDATED
        (Updated {| UpdatedPayload.orderId := id;
                    UpdatedPayload.userId := userId order;
                    UpdatedPayload.status := status;
                    UpdatedPayload.previousStatus := status |})).1).
Proof.
  intros Hstored Hlisted. unfold updateStatus.
  rewrite Hstored, (bool_decide_eq_true_2 _ Hlisted). reflexivity.
Qed.

Lemma updateStatus_unlisted id status (orders : gmap string Order) order :
  orders !! id = Some order ->
  status ∉ validStatuses ->
  updateStatus bus env id status orders
  = (Http.respond 400 (InvalidStatusBody "Invalid status" validStatuses), orders, []).
Proof.
  intros Hstored Hunlisted. unfold updateStatus.
  rewrite Hstored, (bool_decide_eq_false_2 _ Hunlisted). reflexivity.
Qed.

(** A status update never touches the total computed at creation. *)
Lemma updateStatus_keeps_total id status (orders : gmap string Order) order :
  orders !! id = Some order ->
  totalAmount <$> (updateStatus bus env id status orders).1.2 !! id
  = Some (totalAmount order).
Proof.
  intros Hstored.
  destruct (decide (status ∈ validStatuses)) as [Hlisted | Hunlisted].
  - rewrite (updateStatus_listed _ _ _ _ Hstored Hlisted). cbn.
    rewrite lookup_insert_eq. reflexivity.
  - rewrite (updateStatus_unlisted _ _ _ _ Hstored Hunlisted). cbn.
    rewrite Hstored. reflexivity.
Qed.

End UpdateStatus.

(** C1, as the code has it: a stored order takes any of the five listed
    statuses, whatever its current one; a status outside the list is answered
    with 400 "Invalid status" and the store is left as it was. *)
Theorem updateStatus_accepts_listed
    bus env id status (orders : gmap string OrderService.Order) order :
  orders !! id = Some order ->
  let '(res, orders', _) := OrderService.updateStatus bus env id status orders in
  if bool_decide (status ∈ ["pending"; "confirmed"; "shipped"; "delivered"; "cancelled"])
  then
    Http.code res = 200
    /\ orders' = <[id := OrderService.set_updatedAt (OrderService.statusTime env)
                           (OrderService.set_status status order)]> orders
    /\ OrderService.status <$> orders' !! id = Some status
  else
    res = Http.respond 400
            (OrderService.InvalidStatusBody "Invalid status" OrderService.validStatuses)
    /\ orders' = orders.
Proof.
  intros Hstored.
  change ["pending"; "confirmed"; "shipped"; "delivered"; "cancelled"]
    with OrderService.validStatuses.
  case_bool_decide as Hlisted.
  - rewrite (updateStatus_listed bus env _ _ _ _ Hstored Hlisted).
    split; [ reflexivity | ]. split; [ reflexivity | ].
    rewrite lookup_insert_eq. reflexivity.
  - rewrite (updateStatus_unlisted bus env _ _ _ _ Hstored Hlisted).
    split; reflexivity.
Qed.

Lemma updateStatus_accepts_listed_witness :
  let '(res, orders', _) :=
    OrderService.updateStatus Sample.busDown Sample.updateEnv
      "ord-001" "shipped" OrderService.orders0 in
  Http.code res = 200 /\ OrderService.status <$> orders' !! "ord-001" = Some "shipped".
Proof.
  pose proof (updateStatus_accepts_listed Sample.busDown Sample.updateEnv
                "ord-001" "shipped" OrderService.orders0 _ eq_refl) as Hrun.
  destruct (OrderService.updateStatus Sample.busDown Sample.updateEnv
              "ord-001" "shipped" OrderService.orders0) as [[res orders'] deliveries].
  cbn in Hrun. destruct Hrun as (Hcode & _ & Hstatus). split; assumption.
Defined.

(** C1, as the design document has it, fails: the pending order ord-002 is
    moved straight to delivered, and then from delivered back to pending,
    both with a 200 answer, although neither move is a transition of the
    state machine. *)
Lemma updateStatus_ignores_state_machine :
  Design.allowedTransition "pending" "delivered" = false
  /\ Design.allowedTransition "delivered" "pending" = false
  /\ OrderService.status <$> OrderService.orders0 !! "ord-002" = Some "pending"
  /\ let '(res1, orders1, _) :=
       OrderService.updateStatus Sample.busDown Sample.updateEnv
         "ord-002" "delivered" OrderService.orders0 in
     Http.code res1 = 200
     /\ OrderService.status <$> orders1 !! "ord-002" = Some "delivered"
     /\ let '(res2, orders2, _) :=
          OrderService.updateStatus Sample.busDown Sample.updateEnv
            "ord-002" "pending" orders1 in
        Http.code res2 = 200
        /\ OrderService.status <$> orders2 !! "ord-002" = Some "pending".
Proof. vm_compute. repeat split; reflexivity. Qed.

(** C7 on the seeded store: ord-001 is confirmed; moving it to shipped is
    answered with 200, and both subscribers are sent an OrderUpdated event
    whose previousStatus is shipped, the new status, not confirmed. *)
Theorem updateStatus_previousStatus_is_new_status :
  OrderService.status <$> OrderService.orders0 !! "ord-001" = Some "confirmed"
  /\ let '(res, _, deliveries) :=
       OrderService.updateStatus Sample.busDown Sample.updateEnv
         "ord-001" "shipped" OrderService.orders0 in
     Http.code res = 200
     /\ map (fun d => Contracts.payload (Contracts.sent d)) deliveries
        = let sent :=
            OrderService.Updated
              {| OrderService.UpdatedPayload.orderId := "ord-001";
                 OrderService.UpdatedPayload.userId := "usr-001";
                 OrderService.UpdatedPayload.status := "shipped";
                 OrderService.UpdatedPayload.previousStatus := "shipped" |} in
          [sent; sent].
Proof. vm_compute. repeat split; reflexivity. Qed.

(** Whatever the order and the new status, the event of a successful update
    repeats the new status as the previous one. *)
Lemma updateStatus_previousStatus
    bus env id status (orders : gmap string OrderService.Order) order :
  orders !! id = Some order ->
  status ∈ OrderService.validStatuses ->
  Forall (fun d =>
            match Contracts.payload (Contracts.sent d) with
            | OrderService.Updated p =>
              OrderService.UpdatedPayload.previousStatus p = status
              /\ OrderService.UpdatedPayload.status p = status
            | OrderService.Created _ => False
            end)
         (OrderService.updateStatus bus env id status orders).2.
Proof.
  intros Hstored Hlisted.
  rewrite (updateStatus_listed bus env _ _ _ _ Hstored Hlisted). cbn.
  unfold OrderService.post.
  repeat constructor; destruct (Http.axios _); cbn; auto.
Qed.

(** ** Refunds *)

Section Refund.
Import PaymentService.

Variable bus : Contracts.Bus Payload.
Variable env : RefundEnv.

Lemma refund_unknown id (payments : gmap string Payment) :
  payments !! id = None ->
  refund bus env id payments
  = (Http.respond 404 (ErrorBody "Payment not found" id), payments, []).
Proof. intros Hnone. unfold refund. rewrite Hnone. reflexivity. Qed.

Lemma refund_not_completed id (payments : gmap string Payment) payment :
  payments !! id = Some payment ->
  status payment <> "completed" ->
  refund bus env id payments
  = (Http.respond 400
       (ErrorBody "Cannot refund"
          (String.append "Payment status is "
             (String.append (status payment)
                ", only completed payments can be refunded"))),
     payments, []).
Proof.
  intros Hstored Hstatus. unfold refund. rewrite Hstored.
  apply String.eqb_neq in Hstatus. rewrite Hstatus. reflexivity.
Qed.

Lemma refund_completed id (payments : gmap string Payment) payment :
  payments !! id = Some payment ->
  status payment = "completed" ->
  refund bus env id payments
  = (Http.respond 200 (RefundBody (Design.refunded env payment) "Payment refunded successfully"),
     <[id := Design.refunded env payment]> payments,
     (emitEvent bus (refundEmitEnv env) Contracts.EventTypes.PAYMENT_FAILED
        (Refund {| RefundPayload.paymentId := id;
                   RefundPayload.orderId := orderId payment;
                   RefundPayload.reason := "refund";
                   RefundPayload.amount := amount payment;
                   RefundPayload.refundedAt := Some (refundedTime env);
                   RefundPayload.refundTransactionId :=
                     Some (refundTransaction env) |})).1).
Proof.
  intros Hstored Hstatus. unfold refund. rewrite Hstored, Hstatus. reflexivity.
Qed.

End Refund.

(** Refunds served one after the other: a refund of an unknown payment is
    answered with 404; of a payment whose status is not completed, with 400
    "Cannot refund", the store left as it was; of a completed payment, with
    200, the record becoming refunded, after which a further refund that
    starts when this one has finished is answered with 400 and changes
    nothing. *)
Lemma refund_once
    bus env bus' env' id (payments : gmap string PaymentService.Payment) :
  let '(res, payments', _) := PaymentService.refund bus env id payments in
  match payments !! id with
  | None =>
    res = Http.respond 404 (PaymentService.ErrorBody "Payment not found" id)
    /\ payments' = payments
  | Some payment =>
    if decide (PaymentService.status payment = "completed") then
      Http.code res = 200
      /\ (exists record,
            payments' !! id = Some record
            /\ PaymentService.status record = "refunded")
      /\ let '(res', payments'', _) := PaymentService.refund bus' env' id payments' in
         Http.code res' = 400
         /\ (exists message, Http.body res' = PaymentService.ErrorBody "Cannot refund" message)
         /\ payments'' = payments'
    else
      Http.code res = 400
      /\ (exists message, Http.body res = PaymentService.ErrorBody "Cannot refund" message)
      /\ payments' = payments
  end.
Proof.
  destruct (payments !! id) as [payment | ] eqn:Hstored.
  - case_decide as Hstatus.
    + rewrite (refund_completed bus env _ _ _ Hstored Hstatus).
      split; [ reflexivity | ].
      split; [ eexists; split; [ apply lookup_insert_eq | reflexivity ] | ].
      rewrite (refund_not_completed bus' env' id _ (Design.refunded env payment));
        [ | apply lookup_insert_eq | discriminate ].
      split; [ reflexivity | ]. split; [ eexists | ]; reflexivity.
    + rewrite (refund_not_completed bus env _ _ _ Hstored Hstatus).
      split; [ reflexivity | ]. split; [ eexists | ]; reflexivity.
  - rewrite (refund_unknown bus env _ _ Hstored). split; reflexivity.
Qed.

(** Pending, failed and refunded payments are not refunded. *)
Lemma refund_blocked_statuses
    bus env id (payments : gmap string PaymentService.Payment) payment :
  payments !! id = Some payment ->
  PaymentService.status payment ∈ ["pending"; "failed"; "refunded"] ->
  Http.code (PaymentService.refund bus env id payments).1.1 = 400
  /\ (PaymentService.refund bus env id payments).1.2 = payments.
Proof.
  intros Hstored Hstatus.
  rewrite (refund_not_completed bus env _ _ _ Hstored); [ split; reflexivity | ].
  intros Hcompleted. rewrite Hcompleted in Hstatus.
  rewrite !elem_of_cons, elem_of_nil in Hstatus.
  destruct Hstatus as [Heq | [Heq | [Heq | []]]]; discriminate Heq.
Qed.

(** [refund] is the check followed at once by the rest of the handler. *)
Lemma refund_check_then_resume
    bus env id (payments : gmap string PaymentService.Payment) :
  PaymentService.refund bus env id payments
  = match PaymentService.refundCheck id payments with
    | PaymentService.RefundAnswered res => (res, payments, [])
    | PaymentService.RefundAwaiting payment =>
      PaymentService.refundResume bus env id payment payments
    end.
Proof.
  unfold PaymentService.refund, PaymentService.refundCheck.
  destruct (payments !! id) as [payment | ]; [ | reflexivity ].
  destruct (negb _); reflexivity.
Qed.

(** Only a completed payment passes the check. *)
Lemma refundCheck_awaiting id (payments : gmap string PaymentService.Payment) payment :
  PaymentService.refundCheck id payments = PaymentService.RefundAwaiting payment
  <-> payments !! id = Some payment /\ PaymentService.status payment = "completed".
Proof.
  unfold PaymentService.refundCheck.
  destruct (payments !! id) as [stored | ]; [ | split; [ discriminate | intros [[=] _] ] ].
  destruct (String.eqb_spec (PaymentService.status stored) "completed") as [Hdone | Hnot];
    cbn [negb].
  - split; [ intros [= ->]; auto | intros [[= ->] _]; reflexivity ].
  - split; [ discriminate | intros [[= ->] Hdone]; contradiction ].
Qed.

(** Past the check nothing stops a refund: whatever the store holds by
    then, the rest of the handler answers 200, writes the refund time and
    reference of its own request over the record, and publishes. *)
Lemma refundResume_writes
    bus env id payment (payments : gmap string PaymentService.Payment) :
  let '(res, payments', deliveries) :=
    PaymentService.refundResume bus env id payment payments in
  Http.code res = 200
  /\ payments' = <[id := Design.refunded env payment]> payments
  /\ length deliveries = 2.
Proof. repeat split. Qed.

(** C5 on the seeded store: two refund requests for the completed payment
    pay-001, the second arriving while the first awaits its timer.  Both
    pass the status check on the store as seeded; the first then makes the
    payment refunded and is answered with 200; the second, resumed on the
    store that holds the refunded payment, is answered with 200 as well,
    replaces the refund time and reference of the first by its own, and
    publishes a second time. *)
Theorem refund_overlapping_requests :
  exists payment,
    PaymentService.status payment = "completed"
    /\ PaymentService.refundCheck "pay-001" PaymentService.payments0
       = PaymentService.RefundAwaiting payment
    /\ let '(res1, payments1, deliveries1) :=
         PaymentService.refundResume Sample.busDown Sample.refundEnv
           "pay-001" payment PaymentService.payments0 in
       let '(res2, payments2, deliveries2) :=
         PaymentService.refundResume Sample.busDown Sample.refundEnvLate
           "pay-001" payment payments1 in
       Http.code res1 = 200
       /\ PaymentService.status <$> payments1 !! "pay-001" = Some "refunded"
       /\ PaymentService.refundTransactionId <$> payments1 !! "pay-001"
          = Some (Some "txn_5h2m8q4w6e0r3")
       /\ Http.code res2 = 200
       /\ PaymentService.refundTransactionId <$> payments2 !! "pay-001"
          = Some (Some "txn_9c4v1b7n3x5z8")
       /\ PaymentService.refundedAt <$> payments2 !! "pay-001"
          = Some (Some "2024-01-22T10:00:00.800Z")
       /\ payments2 <> payments1
       /\ length deliveries1 = 2
       /\ length deliveries2 = 2.
Proof.
  eexists. split; [ | split; [ reflexivity | ] ]; [ reflexivity | ].
  cbn [PaymentService.refundResume PaymentService.emitEvent].
  rewrite !lookup_insert_eq.
  repeat (split; [ reflexivity | ]).
  split; [ | split; reflexivity ].
  intros Hsame.
  apply (f_equal (fun m => PaymentService.refundTransactionId <$> m !! "pay-001")) in Hsame.
  rewrite insert_insert_eq, !lookup_insert_eq in Hsame. discriminate Hsame.
Qed.

(** C6, as the code has it: a refund of a completed payment makes the record
    refunded, gives it a refund transaction reference, and sends both
    subscribers one event of kind PaymentFailed whose payload names the
    reason refund. *)
Theorem refund_emits_payment_failed
    bus env id (payments : gmap string PaymentService.Payment) payment :
  payments !! id = Some payment ->
  PaymentService.status payment = "completed" ->
  let '(res, payments', deliveries) := PaymentService.refund bus env id payments in
  Http.code res = 200
  /\ (exists record,
        payments' !! id = Some record
        /\ PaymentService.status record = "refunded"
        /\ PaymentService.refundTransactionId record
           = Some (PaymentService.refundTransaction env))
  /\ map Contracts.target deliveries
     = [Contracts.NOTIFICATION_SERVICE; Contracts.ANALYTICS_SERVICE]
  /\ Forall (fun d =>
               Contracts.eventType (Contracts.sent d) = Contracts.EventTypes.PAYMENT_FAILED
               /\ Contracts.eventType (Contracts.sent d) = "PaymentFailed"
               /\ exists p,
                    Contracts.payload (Contracts.sent d) = PaymentService.Refund p
                    /\ PaymentService.RefundPayload.reason p = "refund")
            deliveries.
Proof.
  intros Hstored Hstatus.
  rewrite (refund_completed bus env _ _ _ Hstored Hstatus).
  split; [ reflexivity | ].
  split; [ eexists; split; [ apply lookup_insert_eq | split; reflexivity ] | ].
  cbn. unfold PaymentService.post.
  split.
  - destruct (Http.axios _), (Http.axios _); reflexivity.
  - repeat constructor; destruct (Http.axios _); cbn; eauto.
Qed.

Lemma refund_emits_payment_failed_witness :
  let '(res, payments', deliveries) :=
    PaymentService.refund Sample.busHalf Sample.refundEnv "pay-001"
      PaymentService.payments0 in
  Http.code res = 200
  /\ (exists record,
        payments' !! "pay-001" = Some record
        /\ PaymentService.status record = "refunded"
        /\ PaymentService.refundTransactionId record = Some "txn_5h2m8q4w6e0r3")
  /\ map Contracts.target deliveries
     = [Contracts.NOTIFICATION_SERVICE; Contracts.ANALYTICS_SERVICE]
  /\ Forall (fun d =>
               Contracts.eventType (Contracts.sent d) = Contracts.EventTypes.PAYMENT_FAILED
               /\ Contracts.eventType (Contracts.sent d) = "PaymentFailed"
               /\ exists p,
                    Contracts.payload (Contracts.sent d) = PaymentService.Refund p
                    /\ PaymentService.RefundPayload.reason p = "refund")
            deliveries.
Proof.
  apply (refund_emits_payment_failed Sample.busHalf Sample.refundEnv "pay-001"
           PaymentService.payments0
           {| PaymentService.id := "pay-001"; PaymentService.orderId := "ord-001";
              PaymentService.amount := 109.97; PaymentService.currency := "USD";
              PaymentService.status := "completed";
              PaymentService.paymentMethod := "card";
              PaymentService.createdAt := None;
              PaymentService.processedAt := Some "2024-01-20T10:05:00Z";
              PaymentService.transactionId := Some "txn_1234567890";
              PaymentService.error := None;
              PaymentService.refundedAt := None;
              PaymentService.refundTransactionId := None |});
    reflexivity.
Defined.

(** C6, as the design document has it, fails: the refund of the seeded
    completed payment pay-001 is answered with 200, and the event sent to each
    subscriber is of kind PaymentFailed, not PaymentRefunded. *)
Lemma refund_event_is_not_PaymentRefunded :
  let '(res, _, deliveries) :=
    PaymentService.refund Sample.busHalf Sample.refundEnv "pay-001"
      PaymentService.payments0 in
  Http.code res = 200
  /\ map (fun d => Contracts.eventType (Contracts.sent d)) deliveries
     = ["PaymentFailed"; "PaymentFailed"]
  /\ Forall (fun d => Contracts.eventType (Contracts.sent d) <> Contracts.PaymentRefunded)
            deliveries.
Proof.
  vm_compute. split; [ reflexivity | ]. split; [ reflexivity | ].
  repeat constructor; discriminate.
Qed.

(** ** Event fan-out *)

(** [post] records the attempt and whether the subscriber's answer resolved. *)
Lemma order_post_delivered (bus : Contracts.Bus OrderService.Payload) s event :
  OrderService.post bus s event
  = {| Contracts.target := s; Contracts.sent := event;
       Contracts.delivered := Http.resolves (bus s event) |}.
Proof.
  unfold OrderService.post, Http.resolves. destruct (Http.axios _); reflexivity.
Qed.

Lemma payment_post_delivered (bus : Contracts.Bus PaymentService.Payload) s event :
  PaymentService.post bus s event
  = {| Contracts.target := s; Contracts.sent := event;
       Contracts.delivered := Http.resolves (bus s event) |}.
Proof.
  unfold PaymentService.post, Http.resolves. destruct (Http.axios _); reflexivity.
Qed.

(** The answer and the store of each publishing handler do not depend on
    the bus. *)
Lemma createOrder_any_bus validate remote bus bus' env body
    (orders : gmap string OrderService.Order) :
  (OrderService.createOrder validate remote bus env body orders).1
  = (OrderService.createOrder validate remote bus' env body orders).1.
Proof.
  unfold OrderService.createOrder.
  destruct (validate body); [ reflexivity | ].
  destruct (Http.axios (OrderService.getUser remote _)); [ | reflexivity ].
  destruct (Http.axios (OrderService.postPayment remote _)); reflexivity.
Qed.

Lemma updateStatus_any_bus bus bus' env id status
    (orders : gmap string OrderService.Order) :
  (OrderService.updateStatus bus env id status orders).1
  = (OrderService.updateStatus bus' env id status orders).1.
Proof.
  unfold OrderService.updateStatus.
  destruct (orders !! id); [ | reflexivity ].
  destruct (negb _); reflexivity.
Qed.

Lemma createPayment_any_bus validate bus bus' env body
    (payments : gmap string PaymentService.Payment) :
  (PaymentService.createPayment validate bus env body payments).1
  = (PaymentService.createPayment validate bus' env body payments).1.
Proof.
  unfold PaymentService.createPayment.
  destruct (validate body); [ reflexivity | ].
  cbn. destruct (String.eqb _ "failed"); reflexivity.
Qed.

Lemma refund_any_bus bus bus' env id (payments : gmap string PaymentService.Payment) :
  (PaymentService.refund bus env id payments).1
  = (PaymentService.refund bus' env id payments).1.
Proof.
  unfold PaymentService.refund.
  destruct (payments !! id); [ | reflexivity ].
  destruct (negb _); reflexivity.
Qed.

(** C9: whatever each of the two subscribers answers to an event, [emitEvent]
    posts it to the notification service and then to the metrics collector,
    each post's fate depending on its own subscriber only, and returns the
    same event; and the answer and the store of every publishing handler are
    the same for every behaviour of the subscribers. *)
Theorem delivery_failure_is_absorbed :
  (forall (bus : Contracts.Bus OrderService.Payload) env kind payload,
      let '(deliveries, event) := OrderService.emitEvent bus env kind payload in
      event = {| Contracts.eventId := Contracts.newEventId env;
                 Contracts.eventType := kind;
                 Contracts.timestamp := Contracts.eventTime env;
                 Contracts.payload := payload |}
      /\ deliveries
         = [ {| Contracts.target := Contracts.NOTIFICATION_SERVICE;
                Contracts.sent := event;
                Contracts.delivered :=
                  Http.resolves (bus Contracts.NOTIFICATION_SERVICE event) |};
             {| Contracts.target := Contracts.ANALYTICS_SERVICE;
                Contracts.sent := event;
                Contracts.delivered :=
                  Http.resolves (bus Contracts.ANALYTICS_SERVICE event) |} ])
  /\ (forall (bus : Contracts.Bus PaymentService.Payload) env kind payload,
      let '(deliveries, event) := PaymentService.emitEvent bus env kind payload in
      event = {| Contracts.eventId := Contracts.newEventId env;
                 Contracts.eventType := kind;
                 Contracts.timestamp := Contracts.eventTime env;
                 Contracts.payload := payload |}
      /\ deliveries
         = [ {| Contracts.target := Contracts.NOTIFICATION_SERVICE;
                Contracts.sent := event;
                Contracts.delivered :=
                  Http.resolves (bus Contracts.NOTIFICATION_SERVICE event) |};
             {| Contracts.target := Contracts.ANALYTICS_SERVICE;
                Contracts.sent := event;
                Contracts.delivered :=
                  Http.resolves (bus Contracts.ANALYTICS_SERVICE event) |} ])
  /\ (forall validate remote bus bus' env body (orders : gmap string OrderService.Order),
      (OrderService.createOrder validate remote bus env body orders).1
      = (OrderService.createOrder validate remote bus' env body orders).1)
  /\ (forall bus bus' env id status (orders : gmap string OrderService.Order),
      (OrderService.updateStatus bus env id status orders).1
      = (OrderService.updateStatus bus' env id status orders).1)
  /\ (forall validate bus bus' env body (payments : gmap string PaymentService.Payment),
      (PaymentService.createPayment validate bus env body payments).1
      = (PaymentService.createPayment validate bus' env body payments).1)
  /\ (forall bus bus' env id (payments : gmap string PaymentService.Payment),
      (PaymentService.refund bus env id payments).1
      = (PaymentService.refund bus' env id payments).1).
Proof.
  split; [ | split; [ | split; [ | split; [ | split ] ] ] ].
  - intros bus env kind payload. unfold OrderService.emitEvent.
    rewrite !order_post_delivered. split; reflexivity.
  - intros bus env kind payload. unfold PaymentService.emitEvent.
    rewrite !payment_post_delivered. split; reflexivity.
  - apply createOrder_any_bus.
  - apply updateStatus_any_bus.
  - apply createPayment_any_bus.
  - apply refund_any_bus.
Qed.

(** With the notification service down and the metrics collector up, the
    metrics collector is still served. *)
Example emitEvent_one_subscriber_down :
  map (fun d => (Contracts.target d, Contracts.delivered d))
    (OrderService.updateStatus Sample.busHalf Sample.updateEnv
       "ord-001" "shipped" OrderService.orders0).2
  = [ (Contracts.NOTIFICATION_SERVICE, false); (Contracts.ANALYTICS_SERVICE, true) ].
Proof. reflexivity. Qed.

(** ** Direct notifications *)

Section Notify.
Import NotificationService.

Variable validate : NotificationRequest.t -> option string.
Variable getUser : string -> Http.Outcome UserService.ResBody.
Variable env : Env.
Variable body : NotificationRequest.t.
Variable notifications : gmap string Notification.

Lemma notify_user_unresolved :
  validate body = None ->
  fetchUser getUser (NotificationRequest.userId body) = None ->
  notify validate getUser env body notifications
  = (Http.respond 404 (ErrorBody "User not found" (NotificationRequest.userId body)),
     notifications).
Proof.
  intros Hvalid Huser. unfold notify. rewrite Hvalid, Huser. reflexivity.
Qed.

Lemma sendNotification_success type userId subject message :
  success (sendNotification env type userId subject message)
  = PrimFloat.ltb 0.05 (random env).
Proof.
  unfold sendNotification. destruct (PrimFloat.ltb _ _); reflexivity.
Qed.

End Notify.

(** C10: a direct notification whose user resolves is answered with 201
    whether the delivery succeeds or not, and the record under the new id is
    sent or failed accordingly: after a failed delivery it is in the store
    with status failed. *)
Theorem notify_answers_201
    validate getUser env body
    (notifications : gmap string NotificationService.Notification) user :
  validate body = None ->
  NotificationService.fetchUser getUser
    (NotificationService.NotificationRequest.userId body) = Some user ->
  let '(res, notifications') :=
    NotificationService.notify validate getUser env body notifications in
  Http.code res = 201
  /\ exists record,
       notifications' !! NotificationService.newNotificationId env = Some record
       /\ NotificationService.status record
          = (if PrimFloat.ltb 0.05 (NotificationService.random env)
             then "sent" else "failed")
       /\ Http.body res
          = NotificationService.NotificationBody record
              (if PrimFloat.ltb 0.05 (NotificationService.random env)
               then "Notification sent successfully"
               else "Failed to send notification").
Proof.
  intros Hvalid Huser. unfold NotificationService.notify.
  rewrite Hvalid, Huser. cbn zeta.
  rewrite !sendNotification_success.
  split; [ reflexivity | ].
  eexists. split; [ apply lookup_insert_eq | ]. split; reflexivity.
Qed.

Lemma notify_answers_201_witness :
  let '(res, notifications') :=
    NotificationService.notify NotificationService.NotificationRequestSchema
      (userServiceOver UserService.users0) (Sample.notifyEnv 0.01)
      Sample.notifyRequest ∅ in
  Http.code res = 201
  /\ exists record,
       notifications' !! "ntf-lx3k9b0e2" = Some record
       /\ NotificationService.status record = "failed"
       /\ Http.body res
          = NotificationService.NotificationBody record "Failed to send notification".
Proof.
  apply (notify_answers_201 NotificationService.NotificationRequestSchema
           (userServiceOver UserService.users0) (Sample.notifyEnv 0.01)
           Sample.notifyRequest ∅
           (UserService.UserBody Sample.john));
    reflexivity.
Defined.

(** * Further properties of the handlers *)

(** ** The order store *)

(** The three places where [POST /orders] branches. *)
Ltac createOrder_cases validate remote body :=
  unfold OrderService.createOrder;
  destruct (validate body) as [details | ];
  [ | destruct (Http.axios (OrderService.getUser remote _)) as [user | ];
      [ destruct (Http.axios (OrderService.postPayment remote _)) as [payment | ] | ] ];
  cbn [fst snd OrderService.emitEvent Http.body Http.code].

(** X1: order creation either answers 201 with an order, which is then
    stored under the new id, alone changed, and read back as it is by
    [GET /orders/:id]; or it answers 400, stores nothing and publishes
    nothing. *)
Theorem createOrder_creates_or_leaves
    validate remote bus env body (orders : gmap string OrderService.Order) :
  let '(res, orders', deliveries) :=
    OrderService.createOrder validate remote bus env body orders in
  match Http.body res with
  | OrderService.CreatedBody order _ _ =>
    Http.code res = 201
    /\ OrderService.id order = OrderService.newOrderId env
    /\ orders' = <[OrderService.newOrderId env := order]> orders
    /\ OrderQueries.getOrder (OrderService.newOrderId env) orders'
       = Http.respond 200 (OrderQueries.FoundBody order)
  | _ => Http.code res = 400 /\ orders' = orders /\ deliveries = []
  end.
Proof.
  createOrder_cases validate remote body.
  - repeat split.
  - rewrite insert_insert_eq. unfold OrderQueries.getOrder.
    rewrite lookup_insert_eq. repeat split.
  - unfold OrderQueries.getOrder. rewrite lookup_insert_eq. repeat split.
  - repeat split.
Qed.

(** X2: with a fresh id, the order count of the health answer grows by one
    exactly when order creation answers 201, and stays as it was
    otherwise. *)
Theorem createOrder_order_count
    validate remote bus env body (orders : gmap string OrderService.Order) now :
  orders !! OrderService.newOrderId env = None ->
  let '(res, orders', _) :=
    OrderService.createOrder validate remote bus env body orders in
  OrderQueries.health now orders'
  = Http.respond 200
      (OrderQueries.HealthBody "order-service" "healthy"
         (if decide (Http.code res = 201) then S (size orders) else size orders) now).
Proof.
  intros Hfresh. unfold OrderQueries.health.
  createOrder_cases validate remote body; cbn.
  - reflexivity.
  - rewrite insert_insert_eq, (map_size_insert_None _ _ _ Hfresh). reflexivity.
  - rewrite (map_size_insert_None _ _ _ Hfresh). reflexivity.
  - reflexivity.
Qed.

Lemma createOrder_order_count_witness :
  let '(res, orders', _) :=
    OrderService.createOrder OrderService.CreateOrderRequestSchema
      (Sample.remote 0.5) Sample.busDown Sample.orderEnv
      (Sample.orderRequest "usr-001") OrderService.orders0 in
  OrderQueries.health "2024-01-22T09:05:00.000Z" orders'
  = Http.respond 200
      (OrderQueries.HealthBody "order-service" "healthy" 3 "2024-01-22T09:05:00.000Z").
Proof.
  apply (createOrder_order_count OrderService.CreateOrderRequestSchema
           (Sample.remote 0.5) Sample.busDown Sample.orderEnv
           (Sample.orderRequest "usr-001") OrderService.orders0
           "2024-01-22T09:05:00.000Z").
  reflexivity.
Defined.

(** X3: the OrderCreated event goes out exactly when the answer is 201, once
    to each subscriber, and its payload repeats the order of the answer:
    id, user, total, items, status and payment id. *)
Theorem createOrder_event_repeats_order
    validate remote bus env body (orders : gmap string OrderService.Order) :
  let '(res, _, deliveries) :=
    OrderService.createOrder validate remote bus env body orders in
  match Http.body res with
  | OrderService.CreatedBody order _ _ =>
    map Contracts.target deliveries
    = [Contracts.NOTIFICATION_SERVICE; Contracts.ANALYTICS_SERVICE]
    /\ Forall (fun d =>
                 Contracts.eventType (Contracts.sent d) = "OrderCreated"
                 /\ Contracts.payload (Contracts.sent d)
                    = OrderService.Created
                        {| OrderService.CreatedPayload.orderId := OrderService.id order;
                           OrderService.CreatedPayload.userId := OrderService.userId order;
                           OrderService.CreatedPayload.totalAmount :=
                             OrderService.totalAmount order;
                           OrderService.CreatedPayload.items := OrderService.items order;
                           OrderService.CreatedPayload.status := OrderService.status order;
                           OrderService.CreatedPayload.paymentId :=
                             OrderService.paymentId order |})
              deliveries
  | _ => deliveries = []
  end.
Proof.
  createOrder_cases validate remote body; try reflexivity;
    rewrite !order_post_delivered; split; try reflexivity;
    repeat constructor.
Qed.

(** X4: a new order is pending or confirmed, never anything else, and a
    confirmed one carries the id of its payment. *)
Theorem createOrder_initial_status
    validate remote bus env body (orders : gmap string OrderService.Order) :
  let '(res, _, _) :=
    OrderService.createOrder validate remote bus env body orders in
  match Http.body res with
  | OrderService.CreatedBody order _ _ =>
    (OrderService.status order = "pending"
     \/ OrderService.status order = "confirmed"
        /\ is_Some (OrderService.paymentId order))
  | _ => True
  end.
Proof.
  createOrder_cases validate remote body; try exact I.
  - destruct payment as [ error details | response | record message ]; cbn;
      [ left; reflexivity | | left; reflexivity ].
    destruct (String.eqb _ "completed"); [ right | left ]; eauto.
  - left. reflexivity.
Qed.

(** X5: a status update never adds or removes an order, never touches an
    order other than the one addressed, and on the addressed order keeps the
    id, the user, the items, the total, the payment id and the creation
    time. *)
Theorem updateStatus_touches_status_only
    bus env id status (orders : gmap string OrderService.Order) key :
  match orders !! key, (OrderService.updateStatus bus env id status orders).1.2 !! key with
  | Some before, Some after =>
    OrderService.id after = OrderService.id before
    /\ OrderService.userId after = OrderService.userId before
    /\ OrderService.items after = OrderService.items before
    /\ OrderService.totalAmount after = OrderService.totalAmount before
    /\ OrderService.paymentId after = OrderService.paymentId before
    /\ OrderService.createdAt after = OrderService.createdAt before
    /\ (key = id \/ after = before)
  | None, None => True
  | _, _ => False
  end.
Proof.
  destruct (orders !! id) as [order | ] eqn:Hstored.
  - destruct (decide (status ∈ OrderService.validStatuses)) as [Hlisted | Hunlisted].
    + rewrite (updateStatus_listed bus env _ _ _ _ Hstored Hlisted). cbn [fst snd].
      destruct (decide (key = id)) as [-> | Hother].
      * rewrite Hstored, lookup_insert_eq. repeat split; auto.
      * rewrite lookup_insert_ne by congruence.
        destruct (orders !! key); repeat split; auto.
    + rewrite (updateStatus_unlisted bus env _ _ _ _ Hstored Hunlisted). cbn [fst snd].
      destruct (orders !! key); repeat split; auto.
  - unfold OrderService.updateStatus. rewrite Hstored. cbn [fst snd].
    destruct (orders !! key); repeat split; auto.
Qed.

(** X6: a status update publishes exactly when it answers 200: then one
    OrderUpdated event for the addressed order goes to each subscriber;
    otherwise (404 for an unknown id, 400 for an unlisted status) nothing is
    published and the store is left as it was. *)
Theorem updateStatus_publishes_iff_ok
    bus env id status (orders : gmap string OrderService.Order) :
  let '(res, orders', deliveries) := OrderService.updateStatus bus env id status orders in
  if decide (Http.code res = 200) then
    is_Some (orders !! id)
    /\ map Contracts.target deliveries
       = [Contracts.NOTIFICATION_SERVICE; Contracts.ANALYTICS_SERVICE]
    /\ Forall (fun d =>
                 Contracts.eventType (Contracts.sent d) = "OrderUpdated"
                 /\ exists p,
                      Contracts.payload (Contracts.sent d) = OrderService.Updated p
                      /\ OrderService.UpdatedPayload.orderId p = id
                      /\ OrderService.UpdatedPayload.status p = status)
              deliveries
  else
    orders' = orders /\ deliveries = []
    /\ Http.code res = match orders !! id with Some _ => 400 | None => 404 end.
Proof.
  destruct (orders !! id) as [order | ] eqn:Hstored.
  - destruct (decide (status ∈ OrderService.validStatuses)) as [Hlisted | Hunlisted].
    + rewrite (updateStatus_listed bus env _ _ _ _ Hstored Hlisted).
      cbn [Http.code OrderService.emitEvent fst]. rewrite !order_post_delivered.
      rewrite decide_True by reflexivity.
      split; [ eauto | ]. split; [ reflexivity | ].
      repeat constructor; cbn; eauto.
    + rewrite (updateStatus_unlisted bus env _ _ _ _ Hstored Hunlisted).
      cbn [Http.code]. rewrite decide_False by discriminate. repeat split.
  - unfold OrderService.updateStatus. rewrite Hstored.
    cbn [Http.code]. rewrite decide_False by discriminate. repeat split.
Qed.

(** X7: of two status updates of the same order, only the last one is left
    in the store: the result is the one of the last update alone. *)
Theorem updateStatus_last_wins
    bus1 env1 bus2 env2 id status1 status2
    (orders : gmap string OrderService.Order) order :
  orders !! id = Some order ->
  status1 ∈ OrderService.validStatuses ->
  status2 ∈ OrderService.validStatuses ->
  (OrderService.updateStatus bus2 env2 id status2
     (OrderService.updateStatus bus1 env1 id status1 orders).1.2).1
  = (OrderService.updateStatus bus2 env2 id status2 orders).1.
Proof.
  intros Hstored Hlisted1 Hlisted2.
  rewrite (updateStatus_listed bus1 env1 _ _ _ _ Hstored Hlisted1). cbn [fst snd].
  rewrite (updateStatus_listed bus2 env2 id status2 _ _ (lookup_insert_eq _ _ _) Hlisted2).
  rewrite (updateStatus_listed bus2 env2 _ _ _ _ Hstored Hlisted2). cbn [fst].
  rewrite insert_insert_eq. reflexivity.
Qed.

Lemma updateStatus_last_wins_witness :
  (OrderService.updateStatus Sample.busHalf Sample.updateEnv "ord-001" "cancelled"
     (OrderService.updateStatus Sample.busDown Sample.updateEnv "ord-001" "shipped"
        OrderService.orders0).1.2).1
  = (OrderService.updateStatus Sample.busHalf Sample.updateEnv "ord-001" "cancelled"
       OrderService.orders0).1.
Proof.
  apply (updateStatus_last_wins Sample.busDown Sample.updateEnv
           Sample.busHalf Sample.updateEnv "ord-001" "shipped" "cancelled"
           OrderService.orders0
           {| OrderService.id := "ord-001"; OrderService.userId := "usr-001";
              OrderService.items :=
                [ {| OrderService.productId := "prod-001"; OrderService.quantity := 2;
                     OrderService.unitPrice := 29.99 |};
                  {| OrderService.productId := "prod-002"; OrderService.quantity := 1;
                     OrderService.unitPrice := 49.99 |} ];
              OrderService.totalAmount := 109.97; OrderService.status := "confirmed";
              OrderService.paymentId := Some "pay-001";
              OrderService.createdAt := "2024-01-20T10:00:00Z";
              OrderService.updatedAt := "2024-01-20T10:05:00Z" |}).
  - reflexivity.
  - apply (bool_decide_unpack _). reflexivity.
  - apply (bool_decide_unpack _). reflexivity.
Defined.

(** X8: every order stays stored under its own id: the seeded store has
    this property, and order creation and status updates keep it. *)
Theorem orders_stay_keyed
    validate remote bus env body bus' env' id status
    (orders : gmap string OrderService.Order) :
  Invariants.ordersKeyed orders ->
  Invariants.ordersKeyed (OrderService.createOrder validate remote bus env body orders).1.2
  /\ Invariants.ordersKeyed (OrderService.updateStatus bus' env' id status orders).1.2.
Proof.
  intros Hkeyed. split.
  - createOrder_cases validate remote body; try assumption;
      rewrite ?insert_insert_eq; apply map_Forall_insert_2; auto.
  - destruct (orders !! id) as [order | ] eqn:Hstored.
    + destruct (decide (status ∈ OrderService.validStatuses)) as [Hlisted | Hunlisted].
      * rewrite (updateStatus_listed bus' env' _ _ _ _ Hstored Hlisted). cbn [fst snd].
        apply map_Forall_insert_2; [ | assumption ].
        exact (Hkeyed _ _ Hstored).
      * rewrite (updateStatus_unlisted bus' env' _ _ _ _ Hstored Hunlisted). assumption.
    + unfold OrderService.updateStatus. rewrite Hstored. assumption.
Qed.

Lemma orders_stay_keyed_witness :
  Invariants.ordersKeyed OrderService.orders0
  /\ Invariants.ordersKeyed
       (OrderService.createOrder OrderService.CreateOrderRequestSchema
          (Sample.remote 0.5) Sample.busDown Sample.orderEnv
          (Sample.orderRequest "usr-001") OrderService.orders0).1.2
  /\ Invariants.ordersKeyed
       (OrderService.updateStatus Sample.busDown Sample.updateEnv
          "ord-002" "cancelled" OrderService.orders0).1.2.
Proof.
  assert (Invariants.ordersKeyed OrderService.orders0) as Hseed.
  { unfold Invariants.ordersKeyed, OrderService.orders0.
    apply map_Forall_insert_2; [ reflexivity | ].
    apply map_Forall_insert_2; [ reflexivity | ].
    apply map_Forall_empty. }
  split; [ exact Hseed | ].
  exact (orders_stay_keyed OrderService.CreateOrderRequestSchema
           (Sample.remote 0.5) Sample.busDown Sample.orderEnv
           (Sample.orderRequest "usr-001") Sample.busDown Sample.updateEnv
           "ord-002" "cancelled" OrderService.orders0 Hseed).
Defined.

(** ** The payment store *)

(** The branches of [POST /payments]. *)
Ltac createPayment_cases validate body env :=
  unfold PaymentService.createPayment, PaymentService.processPayment;
  destruct (validate body) as [details | ];
  [ | destruct (PrimFloat.ltb 0.1 (PaymentService.random env)) ];
  cbn [fst snd PaymentService.emitEvent Http.body Http.code
       PaymentService.resultStatus PaymentService.resultTransactionId
       PaymentService.resultError String.eqb Ascii.eqb Bool.eqb
       PaymentService.set_status PaymentService.set_processedAt
       PaymentService.set_transactionId PaymentService.set_error
       PaymentService.status PaymentService.id PaymentService.orderId
       PaymentService.amount PaymentService.currency PaymentService.paymentMethod
       PaymentService.createdAt PaymentService.processedAt
       PaymentService.transactionId PaymentService.error
       PaymentService.refundedAt PaymentService.refundTransactionId].

(** The record that an accepted payment request stores. *)
Lemma createPayment_record
    validate bus env body (payments : gmap string PaymentService.Payment) :
  validate body = None ->
  exists record,
    (PaymentService.createPayment validate bus env body payments).1.2
    = <[PaymentService.newPaymentId env := record]> payments
    /\ PaymentService.id record = PaymentService.newPaymentId env
    /\ PaymentService.orderId record = PaymentService.PaymentRequest.orderId body
    /\ PaymentService.amount record = PaymentService.PaymentRequest.amount body
    /\ PaymentService.refundTransactionId record = None
    /\ PaymentService.currency record
       = PaymentService.orElse (PaymentService.PaymentRequest.currency body) "USD"
           (fun c => c)
    /\ if PrimFloat.ltb 0.1 (PaymentService.random env) then
         PaymentService.status record = "completed"
         /\ PaymentService.transactionId record
            = Some (PaymentService.newTransactionId env)
         /\ PaymentService.error record = None
       else
         PaymentService.status record = "failed"
         /\ PaymentService.transactionId record = None
         /\ PaymentService.error record = Some "Payment declined by processor".
Proof.
  intros Hvalid.
  unfold PaymentService.createPayment, PaymentService.processPayment.
  rewrite Hvalid.
  destruct (PrimFloat.ltb 0.1 (PaymentService.random env));
    cbn; eexists; rewrite insert_insert_eq; repeat split.
Qed.

(** X9: a payment request that fails validation is answered with 400 and
    stores nothing.  An accepted one stores one record under the new id,
    with the order id, amount and method of the request, which
    [GET /payments/:id] then reads back; the record is completed, with a
    transaction reference and answer 201, when the draw is above 0.1, and
    failed, with the decline reason and answer 402, otherwise. *)
Theorem createPayment_outcome
    validate bus env body (payments : gmap string PaymentService.Payment) :
  let '(res, payments', deliveries) :=
    PaymentService.createPayment validate bus env body payments in
  match validate body with
  | Some details =>
    res = Http.respond 400 (PaymentService.ErrorBody "Invalid request" details)
    /\ payments' = payments /\ deliveries = []
  | None =>
    exists record,
      payments' = <[PaymentService.newPaymentId env := record]> payments
      /\ PaymentQueries.getPayment (PaymentService.newPaymentId env) payments'
         = Http.respond 200 (PaymentQueries.FoundBody record)
      /\ PaymentService.id record = PaymentService.newPaymentId env
      /\ PaymentService.orderId record = PaymentService.PaymentRequest.orderId body
      /\ PaymentService.amount record = PaymentService.PaymentRequest.amount body
      /\ PaymentService.paymentMethod record
         = PaymentService.PaymentRequest.paymentMethod body
      /\ PaymentService.refundTransactionId record = None
      /\ if PrimFloat.ltb 0.1 (PaymentService.random env) then
           Http.code res = 201
           /\ PaymentService.status record = "completed"
           /\ PaymentService.transactionId record
              = Some (PaymentService.newTransactionId env)
           /\ PaymentService.error record = None
         else
           Http.code res = 402
           /\ PaymentService.status record = "failed"
           /\ PaymentService.transactionId record = None
           /\ PaymentService.error record = Some "Payment declined by processor"
  end.
Proof.
  createPayment_cases validate body env.
  - repeat split.
  - eexists. rewrite insert_insert_eq. split; [ reflexivity | ].
    unfold PaymentQueries.getPayment. rewrite lookup_insert_eq. repeat split.
  - eexists. rewrite insert_insert_eq. split; [ reflexivity | ].
    unfold PaymentQueries.getPayment. rewrite lookup_insert_eq. repeat split.
Qed.

(** X10: the answer, the stored record and the PaymentProcessed event of an
    accepted payment request agree: the event goes once to each subscriber
    and carries the id and status of the answer, a transaction reference
    exactly when the payment is completed and an error exactly when it
    failed. *)
Theorem createPayment_event_agrees
    validate bus env body (payments : gmap string PaymentService.Payment) :
  let '(res, _, deliveries) :=
    PaymentService.createPayment validate bus env body payments in
  match Http.body res with
  | PaymentService.PaymentBody response =>
    map Contracts.target deliveries
    = [Contracts.NOTIFICATION_SERVICE; Contracts.ANALYTICS_SERVICE]
    /\ Forall (fun d =>
                 Contracts.eventType (Contracts.sent d) = "PaymentProcessed"
                 /\ exists p,
                      Contracts.payload (Contracts.sent d) = PaymentService.Processed p
                      /\ PaymentService.ProcessedPayload.paymentId p
                         = PaymentService.PaymentResponse.id response
                      /\ PaymentService.ProcessedPayload.status p
                         = PaymentService.PaymentResponse.status response
                      /\ PaymentService.ProcessedPayload.amount p
                         = PaymentService.PaymentResponse.amount response
                      /\ PaymentService.ProcessedPayload.transactionId p
                         = PaymentService.PaymentResponse.transactionId response
                      /\ PaymentService.ProcessedPayload.error p
                         = PaymentService.PaymentResponse.error response
                      /\ (is_Some (PaymentService.ProcessedPayload.transactionId p)
                          <-> PaymentService.ProcessedPayload.status p = "completed")
                      /\ (is_Some (PaymentService.ProcessedPayload.error p)
                          <-> PaymentService.ProcessedPayload.status p = "failed"))
              deliveries
  | _ => deliveries = []
  end.
Proof.
  createPayment_cases validate body env; try reflexivity;
    rewrite !payment_post_delivered; (split; [ reflexivity | ]);
    repeat constructor; eexists; (split; [ reflexivity | ]); cbn;
    repeat split; eauto; intros H; try discriminate H;
    destruct H as [? H]; discriminate H.
Qed.

(** X11: a refund never adds or removes a payment, never touches a payment
    other than the one addressed, and on the addressed payment keeps the
    order id, the amount, the currency, the method and the transaction
    reference. *)
Theorem refund_touches_refund_fields_only
    bus env id (payments : gmap string PaymentService.Payment) key :
  match payments !! key, (PaymentService.refund bus env id payments).1.2 !! key with
  | Some before, Some after =>
    PaymentService.id after = PaymentService.id before
    /\ PaymentService.orderId after = PaymentService.orderId before
    /\ PaymentService.amount after = PaymentService.amount before
    /\ PaymentService.currency after = PaymentService.currency before
    /\ PaymentService.paymentMethod after = PaymentService.paymentMethod before
    /\ PaymentService.transactionId after = PaymentService.transactionId before
    /\ PaymentService.processedAt after = PaymentService.processedAt before
    /\ (key = id \/ after = before)
  | None, None => True
  | _, _ => False
  end.
Proof.
  destruct (payments !! id) as [payment | ] eqn:Hstored.
  - destruct (decide (PaymentService.status payment = "completed")) as [Hdone | Hnot].
    + rewrite (refund_completed bus env _ _ _ Hstored Hdone). cbn [fst snd].
      destruct (decide (key = id)) as [-> | Hother].
      * rewrite Hstored, lookup_insert_eq. repeat split; auto.
      * rewrite lookup_insert_ne by congruence.
        destruct (payments !! key); repeat split; auto.
    + rewrite (refund_not_completed bus env _ _ _ Hstored Hnot). cbn [fst snd].
      destruct (payments !! key); repeat split; auto.
  - rewrite (refund_unknown bus env _ _ Hstored). cbn [fst snd].
    destruct (payments !! key); repeat split; auto.
Qed.

(** X12: a payment just created can be refunded exactly when it was
    completed: the refund is then answered with 200 and the record keeps its
    amount and transaction reference; a payment created as failed is
    answered with 400 and stays as it is. *)
Theorem createPayment_then_refund
    validate bus env body bus' env' (payments : gmap string PaymentService.Payment) :
  validate body = None ->
  let created := (PaymentService.createPayment validate bus env body payments).1.2 in
  let '(res, payments', _) :=
    PaymentService.refund bus' env' (PaymentService.newPaymentId env) created in
  if PrimFloat.ltb 0.1 (PaymentService.random env) then
    Http.code res = 200
    /\ exists record,
         payments' !! PaymentService.newPaymentId env = Some record
         /\ PaymentService.status record = "refunded"
         /\ PaymentService.amount record = PaymentService.PaymentRequest.amount body
         /\ PaymentService.transactionId record
            = Some (PaymentService.newTransactionId env)
         /\ PaymentService.refundTransactionId record
            = Some (PaymentService.refundTransaction env')
  else
    Http.code res = 400 /\ payments' = created.
Proof.
  intros Hvalid.
  destruct (createPayment_record validate bus env body payments Hvalid)
    as (record & -> & _ & _ & Hamount & _ & _ & Hdraw).
  cbn zeta.
  destruct (PrimFloat.ltb 0.1 (PaymentService.random env)).
  - destruct Hdraw as (Hstatus & Htxn & _).
    rewrite (refund_completed bus' env' _ _ record (lookup_insert_eq _ _ _) Hstatus).
    split; [ reflexivity | ].
    eexists. split; [ apply lookup_insert_eq | ]. repeat split; assumption.
  - destruct Hdraw as (Hstatus & _).
    rewrite (refund_not_completed bus' env' _ _ record (lookup_insert_eq _ _ _));
      [ split; reflexivity | ].
    rewrite Hstatus. discriminate.
Qed.

Lemma createPayment_then_refund_witness :
  let created :=
    (PaymentService.createPayment PaymentService.PaymentRequestSchema Sample.busDown
       (Sample.paymentEnv 0.5)
       (OrderService.paymentRequest "ord-002" 59.97) PaymentService.payments0).1.2 in
  let '(res, payments', _) :=
    PaymentService.refund Sample.busDown Sample.refundEnv "pay-lx3k9a5d1" created in
  Http.code res = 200
  /\ exists record,
       payments' !! "pay-lx3k9a5d1" = Some record
       /\ PaymentService.status record = "refunded"
       /\ PaymentService.amount record = 59.97%float
       /\ PaymentService.transactionId record = Some "txn_8f3k2j9d0s1a7"
       /\ PaymentService.refundTransactionId record = Some "txn_5h2m8q4w6e0r3".
Proof.
  apply (createPayment_then_refund PaymentService.PaymentRequestSchema Sample.busDown
           (Sample.paymentEnv 0.5) (OrderService.paymentRequest "ord-002" 59.97)
           Sample.busDown Sample.refundEnv PaymentService.payments0).
  reflexivity.
Defined.

(** *** Counting payments by status *)

Lemma allPayments_insert_fresh (payments : gmap string PaymentService.Payment) id p :
  payments !! id = None ->
  PaymentQueries.allPayments (<[id := p]> payments)
  ≡ₚ p :: PaymentQueries.allPayments payments.
Proof.
  intros Hfresh. unfold PaymentQueries.allPayments.
  rewrite (map_to_list_insert _ _ _ Hfresh). reflexivity.
Qed.

Lemma allPayments_stored (payments : gmap string PaymentService.Payment) id old :
  payments !! id = Some old ->
  PaymentQueries.allPayments payments
  ≡ₚ old :: PaymentQueries.allPayments (delete id payments).
Proof.
  intros Hstored. unfold PaymentQueries.allPayments.
  rewrite <- (map_to_list_delete _ _ _ Hstored). reflexivity.
Qed.

Lemma allPayments_insert_stored (payments : gmap string PaymentService.Payment) id p :
  PaymentQueries.allPayments (<[id := p]> payments)
  ≡ₚ p :: PaymentQueries.allPayments (delete id payments).
Proof.
  rewrite <- insert_delete_eq.
  apply allPayments_insert_fresh, lookup_delete_eq.
Qed.

Lemma countStatus_cons s p l :
  PaymentQueries.countStatus s (p :: l)
  = (if decide (PaymentService.status p = s) then 1 else 0)
    + PaymentQueries.countStatus s l.
Proof.
  unfold PaymentQueries.countStatus. rewrite filter_cons.
  destruct (decide (PaymentService.status p = s)); reflexivity.
Qed.

Lemma countStatus_Permutation s l l' :
  l ≡ₚ l' -> PaymentQueries.countStatus s l = PaymentQueries.countStatus s l'.
Proof.
  intros Hperm. unfold PaymentQueries.countStatus. rewrite Hperm. reflexivity.
Qed.

(** Replacing a stored record moves one unit from the count of its old
    status to the count of its new one. *)
Lemma countStatus_replace (payments : gmap string PaymentService.Payment) id old p s :
  payments !! id = Some old ->
  PaymentQueries.countStatus s (PaymentQueries.allPayments (<[id := p]> payments))
  + (if decide (PaymentService.status old = s) then 1 else 0)
  = PaymentQueries.countStatus s (PaymentQueries.allPayments payments)
    + (if decide (PaymentService.status p = s) then 1 else 0).
Proof.
  intros Hstored.
  rewrite (countStatus_Permutation s _ _ (allPayments_insert_stored payments id p)).
  rewrite (countStatus_Permutation s _ _ (allPayments_stored payments id old Hstored)).
  rewrite !countStatus_cons. lia.
Qed.

Lemma health_stats now (payments : gmap string PaymentService.Payment) :
  PaymentQueries.health now payments
  = Http.respond 200
      (PaymentQueries.HealthBody "payment-service" "healthy"
         (PaymentQueries.stats payments) now).
Proof. reflexivity. Qed.

(** X13: in the statistics of the health answer, a successful refund moves
    one payment out of the completed count and leaves the total, the failed
    count and the pending count as they were: refunded payments are counted
    in the total only. *)
Theorem refund_health_stats
    bus env id (payments : gmap string PaymentService.Payment) payment :
  payments !! id = Some payment ->
  PaymentService.status payment = "completed" ->
  let before := PaymentQueries.stats payments in
  let after := PaymentQueries.stats (PaymentService.refund bus env id payments).1.2 in
  PaymentQueries.total after = PaymentQueries.total before
  /\ S (PaymentQueries.completed after) = PaymentQueries.completed before
  /\ PaymentQueries.failed after = PaymentQueries.failed before
  /\ PaymentQueries.pending after = PaymentQueries.pending before.
Proof.
  intros Hstored Hdone.
  rewrite (refund_completed bus env _ _ _ Hstored Hdone). cbn [fst snd].
  unfold PaymentQueries.stats.
  cbn [PaymentQueries.total PaymentQueries.completed PaymentQueries.failed
       PaymentQueries.pending].
  pose proof (countStatus_replace payments id payment (Design.refunded env payment)
                "completed" Hstored) as Hcompleted.
  pose proof (countStatus_replace payments id payment (Design.refunded env payment)
                "failed" Hstored) as Hfailed.
  pose proof (countStatus_replace payments id payment (Design.refunded env payment)
                "pending" Hstored) as Hpending.
  rewrite Hdone in Hcompleted, Hfailed, Hpending.
  cbn in Hcompleted, Hfailed, Hpending.
  split; [ | repeat case_decide; first [ congruence | lia ] ].
  rewrite (allPayments_insert_stored payments id), (allPayments_stored payments id _ Hstored).
  reflexivity.
Qed.

Lemma refund_health_stats_witness :
  let before := PaymentQueries.stats PaymentService.payments0 in
  let after :=
    PaymentQueries.stats
      (PaymentService.refund Sample.busDown Sample.refundEnv "pay-001"
         PaymentService.payments0).1.2 in
  PaymentQueries.total after = PaymentQueries.total before
  /\ S (PaymentQueries.completed after) = PaymentQueries.completed before
  /\ PaymentQueries.failed after = PaymentQueries.failed before
  /\ PaymentQueries.pending after = PaymentQueries.pending before.
Proof.
  apply (refund_health_stats Sample.busDown Sample.refundEnv "pay-001"
           PaymentService.payments0
           {| PaymentService.id := "pay-001"; PaymentService.orderId := "ord-001";
              PaymentService.amount := 109.97; PaymentService.currency := "USD";
              PaymentService.status := "completed";
              PaymentService.paymentMethod := "card";
              PaymentService.createdAt := None;
              PaymentService.processedAt := Some "2024-01-20T10:05:00Z";
              PaymentService.transactionId := Some "txn_1234567890";
              PaymentService.error := None;
              PaymentService.refundedAt := None;
              PaymentService.refundTransactionId := None |});
    reflexivity.
Defined.

(** X14: with a fresh id, an accepted payment request adds one payment to
    the total of the health statistics, and one to the completed count or to
    the failed count according to the draw; the pending count stays as it
    was, no payment being left pending. *)
Theorem createPayment_health_stats
    validate bus env body (payments : gmap string PaymentService.Payment) :
  validate body = None ->
  payments !! PaymentService.newPaymentId env = None ->
  let before := PaymentQueries.stats payments in
  let after :=
    PaymentQueries.stats
      (PaymentService.createPayment validate bus env body payments).1.2 in
  PaymentQueries.total after = S (PaymentQueries.total before)
  /\ PaymentQueries.pending after = PaymentQueries.pending before
  /\ if PrimFloat.ltb 0.1 (PaymentService.random env) then
       PaymentQueries.completed after = S (PaymentQueries.completed before)
       /\ PaymentQueries.failed after = PaymentQueries.failed before
     else
       PaymentQueries.completed after = PaymentQueries.completed before
       /\ PaymentQueries.failed after = S (PaymentQueries.failed before).
Proof.
  intros Hvalid Hfresh.
  destruct (createPayment_record validate bus env body payments Hvalid)
    as (record & -> & _ & _ & _ & _ & _ & Hdraw).
  unfold PaymentQueries.stats.
  cbn [PaymentQueries.total PaymentQueries.completed PaymentQueries.failed
       PaymentQueries.pending].
  rewrite !(countStatus_Permutation _ _ _ (allPayments_insert_fresh payments _ record Hfresh)).
  rewrite (allPayments_insert_fresh payments _ record Hfresh).
  rewrite !countStatus_cons.
  destruct (PrimFloat.ltb 0.1 (PaymentService.random env)).
  - destruct Hdraw as (-> & _).
    repeat case_decide; first [ congruence | repeat split ].
  - destruct Hdraw as (-> & _).
    repeat case_decide; first [ congruence | repeat split ].
Qed.

Lemma createPayment_health_stats_witness :
  let before := PaymentQueries.stats PaymentService.payments0 in
  let after :=
    PaymentQueries.stats
      (PaymentService.createPayment PaymentService.PaymentRequestSchema Sample.busDown
         (Sample.paymentEnv 0.05)
         (OrderService.paymentRequest "ord-002" 59.97) PaymentService.payments0).1.2 in
  PaymentQueries.total after = S (PaymentQueries.total before)
  /\ PaymentQueries.pending after = PaymentQueries.pending before
  /\ PaymentQueries.completed after = PaymentQueries.completed before
  /\ PaymentQueries.failed after = S (PaymentQueries.failed before).
Proof.
  apply (createPayment_health_stats PaymentService.PaymentRequestSchema
           Sample.busDown (Sample.paymentEnv 0.05)
           (OrderService.paymentRequest "ord-002" 59.97)
           PaymentService.payments0);
    reflexivity.
Defined.

(** *** Payments at rest *)

Lemma payments0_sound : Invariants.paymentsSound PaymentService.payments0.
Proof.
  unfold Invariants.paymentsSound, PaymentService.payments0.
  apply map_Forall_insert_2; [ | apply map_Forall_empty ].
  split; [ reflexivity | ]. left. cbn. eauto.
Qed.

(** X15: every payment stays stored under its own id and at rest, that is
    completed with a transaction reference and no error, failed with an
    error and no transaction reference, or refunded with both the
    transaction and the refund reference: payment creation and refunds keep
    this property of the store. *)
Theorem payments_stay_sound
    validate bus env body bus' env' id (payments : gmap string PaymentService.Payment) :
  Invariants.paymentsSound payments ->
  Invariants.paymentsSound
    (PaymentService.createPayment validate bus env body payments).1.2
  /\ Invariants.paymentsSound (PaymentService.refund bus' env' id payments).1.2.
Proof.
  intros Hsound. split.
  - destruct (validate body) as [details | ] eqn:Hvalid.
    + unfold PaymentService.createPayment. rewrite Hvalid. assumption.
    + destruct (createPayment_record validate bus env body payments Hvalid)
        as (record & -> & Hid & _ & _ & Hrefund & _ & Hdraw).
      apply map_Forall_insert_2; [ | assumption ].
      split; [ assumption | ].
      destruct (PrimFloat.ltb 0.1 (PaymentService.random env)).
      * destruct Hdraw as (Hstatus & Htxn & Herror).
        left. rewrite Htxn. eauto.
      * destruct Hdraw as (Hstatus & Htxn & Herror).
        right. left. rewrite Herror. eauto.
  - destruct (payments !! id) as [payment | ] eqn:Hstored.
    + destruct (decide (PaymentService.status payment = "completed")) as [Hdone | Hnot].
      * rewrite (refund_completed bus' env' _ _ _ Hstored Hdone). cbn [fst snd].
        apply map_Forall_insert_2; [ | assumption ].
        destruct (Hsound _ _ Hstored) as [Hid Hrest].
        split; [ exact Hid | ].
        right. right. cbn.
        destruct Hrest as [ (_ & Htxn & Herror & _)
                          | [ (Hfailed & _) | (Hrefunded & _) ] ];
          [ eauto | congruence | congruence ].
      * rewrite (refund_not_completed bus' env' _ _ _ Hstored Hnot). assumption.
    + rewrite (refund_unknown bus' env' _ _ Hstored). assumption.
Qed.

Lemma payments_stay_sound_witness :
  Invariants.paymentsSound
    (PaymentService.createPayment PaymentService.PaymentRequestSchema Sample.busDown
       (Sample.paymentEnv 0.05)
       (OrderService.paymentRequest "ord-002" 59.97) PaymentService.payments0).1.2
  /\ Invariants.paymentsSound
       (PaymentService.refund Sample.busDown Sample.refundEnv "pay-001"
          PaymentService.payments0).1.2.
Proof.
  exact (payments_stay_sound PaymentService.PaymentRequestSchema Sample.busDown
           (Sample.paymentEnv 0.05) (OrderService.paymentRequest "ord-002" 59.97)
           Sample.busDown Sample.refundEnv "pay-001" PaymentService.payments0
           payments0_sound).
Defined.

(** ** Direct notifications, continued *)

(** X16: a direct notification for a user that the user service does not
    know, or cannot be asked about, is answered with 404 "User not found" and
    no notification record is created. *)
Theorem notify_unknown_user
    validate getUser env body
    (notifications : gmap string NotificationService.Notification) :
  validate body = None ->
  Design.identityLookupFails
    (NotificationService.NotificationRequest.userId body)
    (getUser (NotificationService.NotificationRequest.userId body)) ->
  NotificationService.notify validate getUser env body notifications
  = (Http.respond 404
       (NotificationService.ErrorBody "User not found"
          (NotificationService.NotificationRequest.userId body)),
     notifications).
Proof.
  intros Hvalid Hfails. apply notify_user_unresolved; [ assumption | ].
  unfold NotificationService.fetchUser.
  rewrite (identityLookupFails_rejected _ _ Hfails). reflexivity.
Qed.

Lemma notify_unknown_user_witness :
  NotificationService.notify NotificationService.NotificationRequestSchema
    (userServiceOver UserService.users0) (Sample.notifyEnv 0.5)
    {| NotificationService.NotificationRequest.userId := "unknown";
       NotificationService.NotificationRequest.type := "email";
       NotificationService.NotificationRequest.subject := "Hello";
       NotificationService.NotificationRequest.message := "Welcome" |} ∅
  = (Http.respond 404 (NotificationService.ErrorBody "User not found" "unknown"), ∅).
Proof.
  apply (notify_unknown_user NotificationService.NotificationRequestSchema
           (userServiceOver UserService.users0) (Sample.notifyEnv 0.5)
           {| NotificationService.NotificationRequest.userId := "unknown";
              NotificationService.NotificationRequest.type := "email";
              NotificationService.NotificationRequest.subject := "Hello";
              NotificationService.NotificationRequest.message := "Welcome" |} ∅).
  - reflexivity.
  - apply (Design.user_not_found "unknown" UserService.users0). reflexivity.
Defined.

(** X17: a direct notification answered with 201 stores exactly one record,
    under the new id, every other record staying as it was; the record
    copies the user, channel, subject and message of the request, has a
    sending time exactly when it is sent, and is read back as it is by
    [GET /notifications/:id]; any other answer leaves the store as it was. *)
Theorem notify_stores_request
    validate getUser env body
    (notifications : gmap string NotificationService.Notification) :
  let '(res, notifications') :=
    NotificationService.notify validate getUser env body notifications in
  match Http.body res with
  | NotificationService.NotificationBody record _ =>
    Http.code res = 201
    /\ notifications' = <[NotificationService.newNotificationId env := record]> notifications
    /\ NotificationQueries.getNotification
         (NotificationService.newNotificationId env) notifications'
       = Http.respond 200 (NotificationQueries.FoundBody record)
    /\ NotificationService.id record = NotificationService.newNotificationId env
    /\ NotificationService.userId record
       = NotificationService.NotificationRequest.userId body
    /\ NotificationService.type record = NotificationService.NotificationRequest.type body
    /\ NotificationService.subject record
       = NotificationService.NotificationRequest.subject body
    /\ NotificationService.message record
       = NotificationService.NotificationRequest.message body
    /\ (NotificationService.status record = "sent"
        /\ NotificationService.sentAt record = Some (NotificationService.sentTime env)
        \/ NotificationService.status record = "failed"
           /\ NotificationService.sentAt record = None)
  | NotificationService.ErrorBody _ _ => notifications' = notifications
  end.
Proof.
  unfold NotificationService.notify.
  destruct (validate body) as [details | ]; [ reflexivity | ].
  destruct (NotificationService.fetchUser getUser _) as [user | ]; [ | reflexivity ].
  unfold NotificationService.sendNotification.
  destruct (PrimFloat.ltb 0.05 (NotificationService.random env));
    cbn; rewrite insert_insert_eq;
    unfold NotificationQueries.getNotification; rewrite lookup_insert_eq;
    repeat split; auto.
Qed.

(** ** The metrics collector *)

Local Open Scope list_scope.

Section Analytics.
Import AnalyticsService.

Variable env : Env.

Lemma missing_false_iff (x : option string) :
  missing x = false <-> exists s, x = Some s /\ s <> "".
Proof.
  destruct x as [s | ]; cbn.
  - rewrite String.eqb_neq. split; [ eauto | ].
    intros (s' & Heq & Hne). congruence.
  - split; [ discriminate | ]. intros (s' & Heq & _). discriminate.
Qed.

(** [processEvent] always stores the event, last. *)
Lemma processEvent_events event state :
  events (processEvent env event state).2
  = events state ++ [ {| event := event; receivedAt := receivedTime env |} ].
Proof.
  unfold processEvent.
  repeat (destruct (String.eqb _ _); [ destruct (payload event); reflexivity | ]).
  reflexivity.
Qed.

(** [processEvent] keeps the metrics recorded so far and adds at most one. *)
Lemma processEvent_metrics event state :
  metrics (processEvent env event state).2 = metrics state
  \/ exists entry,
       metrics (processEvent env event state).2 = metrics state ++ [entry]
       /\ id entry = newMetricId env
       /\ (processEvent env event state).1 = Returned.
Proof.
  unfold processEvent.
  repeat (destruct (String.eqb _ _);
          [ destruct (payload event); [ right; eexists; repeat split | left; reflexivity ] | ]).
  left. reflexivity.
Qed.

End Analytics.

(** X18: the metrics collector answers 400 and stores nothing when the
    event type or the timestamp of an event is missing or empty.  Any other
    event is appended to the recorded events with its time of receipt, the
    earlier events staying as they were, and the metrics recorded so far are
    kept, at most one being added; the answer is then 200 or 500, and after
    a 500 the event is recorded all the same, without a metric. *)
Theorem ingest_records
    env event (state : AnalyticsService.State) :
  let '(res, state') := AnalyticsService.ingest env event state in
  if AnalyticsService.missing (AnalyticsService.eventType event)
     || AnalyticsService.missing (AnalyticsService.timestamp event)
  then Http.code res = 400 /\ state' = state
  else
    AnalyticsService.events state'
    = AnalyticsService.events state
      ++ [ {| AnalyticsService.event := event;
              AnalyticsService.receivedAt := AnalyticsService.receivedTime env |} ]
    /\ (Http.code res = 200
        /\ (AnalyticsService.metrics state' = AnalyticsService.metrics state
            \/ exists entry,
                 AnalyticsService.metrics state'
                 = AnalyticsService.metrics state ++ [entry])
        \/ Http.code res = 500
           /\ AnalyticsService.payload event = None
           /\ AnalyticsService.metrics state' = AnalyticsService.metrics state).
Proof.
  unfold AnalyticsService.ingest.
  destruct (AnalyticsService.missing (AnalyticsService.eventType event)
            || AnalyticsService.missing (AnalyticsService.timestamp event));
    [ split; reflexivity | ].
  pose proof (processEvent_events env event state) as Hevents.
  pose proof (processEvent_metrics env event state) as Hmetrics.
  destruct (AnalyticsService.processEvent env event state) as [[ | ] state'] eqn:Hrun;
    cbn [fst snd] in *; (split; [ exact Hevents | ]).
  - left. split; [ reflexivity | ].
    destruct Hmetrics as [ Hsame | (entry & Hadded & _) ]; eauto.
  - right. split; [ reflexivity | ].
    destruct Hmetrics as [ Hsame | (entry & _ & _ & Hreturned) ];
      [ | discriminate Hreturned ].
    split; [ | exact Hsame ].
    unfold AnalyticsService.processEvent in Hrun.
    destruct (AnalyticsService.payload event); [ | reflexivity ].
    repeat (destruct (String.eqb _ _); [ discriminate Hrun | ]).
    discriminate Hrun.
Qed.

(** X19: of the events that carry a payload, exactly those of kind
    OrderCreated, PaymentProcessed and UserCreated add a metric, named for
    the order, payment and user service in turn; every other kind is
    recorded as an event only. *)
Theorem processEvent_metric_kinds
    env kind timestamp eventId p (state : AnalyticsService.State) :
  let event :=
    {| AnalyticsService.eventId := eventId;
       AnalyticsService.eventType := Some kind;
       AnalyticsService.timestamp := timestamp;
       AnalyticsService.payload := Some p |} in
  let '(completion, state') := AnalyticsService.processEvent env event state in
  completion = AnalyticsService.Returned
  /\ if bool_decide (kind ∈ ["OrderCreated"; "PaymentProcessed"; "UserCreated"]) then
       exists entry,
         AnalyticsService.metrics state' = AnalyticsService.metrics state ++ [entry]
         /\ (kind = "OrderCreated"
             /\ AnalyticsService.service entry = "order-service"
             /\ AnalyticsService.metric entry = "orders_created"
             \/ kind = "PaymentProcessed"
                /\ AnalyticsService.service entry = "payment-service"
                /\ AnalyticsService.metric entry
                   ∈ ["payments_successful"; "payments_failed"]
             \/ kind = "UserCreated"
                /\ AnalyticsService.service entry = "user-service"
                /\ AnalyticsService.metric entry = "users_created"
                /\ AnalyticsService.value entry = 1%float)
     else AnalyticsService.metrics state' = AnalyticsService.metrics state.
Proof.
  unfold AnalyticsService.processEvent.
  cbn [AnalyticsService.eventType AnalyticsService.payload].
  change (default "" (Some kind)) with kind.
  unfold Contracts.EventTypes.ORDER_CREATED, Contracts.EventTypes.PAYMENT_PROCESSED,
    Contracts.EventTypes.USER_CREATED.
  destruct (String.eqb_spec kind "OrderCreated") as [-> | Hnot1].
  { split; [ reflexivity | ]. rewrite bool_decide_eq_true_2 by set_solver.
    eexists. split; [ reflexivity | ]. left. repeat split. }
  destruct (String.eqb_spec kind "PaymentProcessed") as [-> | Hnot2].
  { split; [ reflexivity | ]. rewrite bool_decide_eq_true_2 by set_solver.
    eexists. split; [ reflexivity | ]. right. left.
    split; [ reflexivity | ]. split; [ reflexivity | ]. cbn.
    destruct (AnalyticsService.status p) as [s | ];
      [ destruct (String.eqb s "completed") | ]; set_solver. }
  destruct (String.eqb_spec kind "UserCreated") as [-> | Hnot3].
  { split; [ reflexivity | ]. rewrite bool_decide_eq_true_2 by set_solver.
    eexists. split; [ reflexivity | ]. right. right. repeat split. }
  split; [ reflexivity | ].
  rewrite bool_decide_eq_false_2; [ reflexivity | ].
  rewrite !elem_of_cons, elem_of_nil. tauto.
Qed.

(** *** What the publishers' events do to the metrics *)

(** An event with a type and a timestamp passes the check of
    [POST /events]. *)
Lemma ingest_checked env event (state : AnalyticsService.State) :
  AnalyticsService.missing (AnalyticsService.eventType event) = false ->
  AnalyticsService.missing (AnalyticsService.timestamp event) = false ->
  AnalyticsService.ingest env event state
  = match AnalyticsService.processEvent env event state with
    | (AnalyticsService.Threw, state') =>
      (Http.respond 500 (AnalyticsService.InternalErrorBody "Internal server error"),
       state')
    | (AnalyticsService.Returned, state') =>
      (Http.respond 200
         (AnalyticsService.AckBody true
            (default "" (AnalyticsService.eventType event))
            (AnalyticsService.ackTime env)),
       state')
    end.
Proof.
  intros Htype Htime. unfold AnalyticsService.ingest.
  rewrite Htype, Htime. reflexivity.
Qed.

(** X20: the events of a status update and of a refund reach the metrics
    collector, are acknowledged with 200 and recorded as events, but add no
    metric: neither status changes nor refunds show in the metrics. *)
Theorem updates_and_refunds_unmetered
    bus uenv id status (orders : gmap string OrderService.Order)
    bus' renv paymentId (payments : gmap string PaymentService.Payment)
    env (state : AnalyticsService.State) :
  Contracts.eventTime (OrderService.updateEmitEnv uenv) <> "" ->
  Contracts.eventTime (PaymentService.refundEmitEnv renv) <> "" ->
  Forall (fun d =>
            let event := AnalyticsService.ofOrderEvent (Contracts.sent d) in
            let '(res, state') := AnalyticsService.ingest env event state in
            Http.code res = 200
            /\ AnalyticsService.metrics state' = AnalyticsService.metrics state
            /\ AnalyticsService.events state'
               = AnalyticsService.events state
                 ++ [ {| AnalyticsService.event := event;
                         AnalyticsService.receivedAt :=
                           AnalyticsService.receivedTime env |} ])
         (OrderService.updateStatus bus uenv id status orders).2
  /\ Forall (fun d =>
               let event := AnalyticsService.ofPaymentEvent (Contracts.sent d) in
               let '(res, state') := AnalyticsService.ingest env event state in
               Http.code res = 200
               /\ AnalyticsService.metrics state' = AnalyticsService.metrics state
               /\ AnalyticsService.events state'
                  = AnalyticsService.events state
                    ++ [ {| AnalyticsService.event := event;
                            AnalyticsService.receivedAt :=
                              AnalyticsService.receivedTime env |} ])
            (PaymentService.refund bus' renv paymentId payments).2.
Proof.
  intros Hutime Hrtime. apply String.eqb_neq in Hutime, Hrtime. split.
  - unfold OrderService.updateStatus.
    destruct (orders !! id) as [order | ]; [ | constructor ].
    destruct (negb _); [ constructor | ].
    cbn [snd OrderService.emitEvent]. rewrite !order_post_delivered.
    repeat constructor; cbn [Contracts.sent];
      rewrite ingest_checked by (cbn; auto); repeat split.
  - unfold PaymentService.refund.
    destruct (payments !! paymentId) as [payment | ]; [ | constructor ].
    destruct (negb _); [ constructor | ].
    cbn [snd PaymentService.emitEvent]. rewrite !payment_post_delivered.
    repeat constructor; cbn [Contracts.sent];
      rewrite ingest_checked by (cbn; auto); repeat split.
Qed.

Lemma updates_and_refunds_unmetered_witness :
  let state := {| AnalyticsService.metrics := []; AnalyticsService.events := [] |} in
  let env :=
    {| AnalyticsService.receivedTime := "2024-01-22T10:00:00.600Z";
       AnalyticsService.newMetricId := "mtr-lx3k9c7f3";
       AnalyticsService.metricTime := "2024-01-22T10:00:00.601Z";
       AnalyticsService.ackTime := "2024-01-22T10:00:00.602Z" |} in
  Forall (fun d =>
            let event := AnalyticsService.ofOrderEvent (Contracts.sent d) in
            let '(res, state') := AnalyticsService.ingest env event state in
            Http.code res = 200
            /\ AnalyticsService.metrics state' = AnalyticsService.metrics state
            /\ AnalyticsService.events state'
               = AnalyticsService.events state
                 ++ [ {| AnalyticsService.event := event;
                         AnalyticsService.receivedAt :=
                           AnalyticsService.receivedTime env |} ])
         (OrderService.updateStatus Sample.busHalf Sample.updateEnv
            "ord-001" "shipped" OrderService.orders0).2
  /\ Forall (fun d =>
               let event := AnalyticsService.ofPaymentEvent (Contracts.sent d) in
               let '(res, state') := AnalyticsService.ingest env event state in
               Http.code res = 200
               /\ AnalyticsService.metrics state' = AnalyticsService.metrics state
               /\ AnalyticsService.events state'
                  = AnalyticsService.events state
                    ++ [ {| AnalyticsService.event := event;
                            AnalyticsService.receivedAt :=
                              AnalyticsService.receivedTime env |} ])
            (PaymentService.refund Sample.busHalf Sample.refundEnv "pay-001"
               PaymentService.payments0).2.
Proof.
  apply (updates_and_refunds_unmetered Sample.busHalf Sample.updateEnv
           "ord-001" "shipped" OrderService.orders0
           Sample.busHalf Sample.refundEnv "pay-001" PaymentService.payments0);
    discriminate.
Defined.

(** X21: the OrderCreated event of a new order, once at the metrics
    collector, adds the metric orders_created of the order service, tagged
    with the order and its user; its value is the order's total, or 1 when
    the total is zero or not a finite number. *)
Theorem createOrder_metered
    validate remote bus oenv body (orders : gmap string OrderService.Order)
    env (state : AnalyticsService.State) :
  Contracts.eventTime (OrderService.emitEnv oenv) <> "" ->
  Forall (fun d =>
            let event := AnalyticsService.ofOrderEvent (Contracts.sent d) in
            let '(res, state') := AnalyticsService.ingest env event state in
            let total :=
              OrderService.calculateTotal (OrderService.CreateOrderRequest.items body) in
            Http.code res = 200
            /\ AnalyticsService.metrics state'
               = AnalyticsService.metrics state
                 ++ [ {| AnalyticsService.id := AnalyticsService.newMetricId env;
                         AnalyticsService.service := "order-service";
                         AnalyticsService.metric := "orders_created";
                         AnalyticsService.value :=
                           if PrimFloat.is_zero total || negb (PrimFloat.is_finite total)
                           then 1%float else total;
                         AnalyticsService.metricTimestamp :=
                           AnalyticsService.metricTime env;
                         AnalyticsService.tags :=
                           [ ("orderId", Some (OrderService.newOrderId oenv));
                             ("userId",
                              Some (OrderService.CreateOrderRequest.userId body)) ] |} ])
         (OrderService.createOrder validate remote bus oenv body orders).2.
Proof.
  intros Htime. apply String.eqb_neq in Htime.
  assert (forall total,
             AnalyticsService.orOne (AnalyticsService.jsonNumber total)
             = if PrimFloat.is_zero total || negb (PrimFloat.is_finite total)
               then 1%float else total) as Hvalue.
  { intros total. unfold AnalyticsService.orOne, AnalyticsService.jsonNumber.
    destruct (PrimFloat.is_finite total) eqn:Hfinite.
    - unfold PrimFloat.is_finite in Hfinite.
      apply negb_true_iff, orb_false_iff in Hfinite as [-> _].
      rewrite !orb_false_r. reflexivity.
    - rewrite orb_true_r. reflexivity. }
  createOrder_cases validate remote body; try constructor;
    rewrite ?order_post_delivered;
    repeat constructor; cbn [Contracts.sent];
    rewrite ingest_checked by (cbn; auto);
    (split; [ reflexivity | ]); cbn; rewrite Hvalue; reflexivity.
Qed.

Lemma createOrder_metered_witness :
  let env :=
    {| AnalyticsService.receivedTime := "2024-01-22T09:00:02.100Z";
       AnalyticsService.newMetricId := "mtr-lx3k9c7f3";
       AnalyticsService.metricTime := "2024-01-22T09:00:02.101Z";
       AnalyticsService.ackTime := "2024-01-22T09:00:02.102Z" |} in
  let state := {| AnalyticsService.metrics := []; AnalyticsService.events := [] |} in
  let free :=
    {| OrderService.CreateOrderRequest.userId := "usr-001";
       OrderService.CreateOrderRequest.items :=
         [ {| OrderService.productId := "sample"; OrderService.quantity := 1;
              OrderService.unitPrice := 0 |} ] |} in
  Forall (fun d =>
            let event := AnalyticsService.ofOrderEvent (Contracts.sent d) in
            let '(res, state') := AnalyticsService.ingest env event state in
            Http.code res = 200
            /\ AnalyticsService.metrics state'
               = [ {| AnalyticsService.id := "mtr-lx3k9c7f3";
                      AnalyticsService.service := "order-service";
                      AnalyticsService.metric := "orders_created";
                      AnalyticsService.value := 1;
                      AnalyticsService.metricTimestamp := "2024-01-22T09:00:02.101Z";
                      AnalyticsService.tags :=
                        [ ("orderId", Some "ord-lx3k9a1c4");
                          ("userId", Some "usr-001") ] |} ])
         (OrderService.createOrder OrderService.CreateOrderRequestSchema
            Sample.remoteSlowPayment Sample.busHalf Sample.orderEnv free
            OrderService.orders0).2.
Proof.
  apply (createOrder_metered OrderService.CreateOrderRequestSchema
           Sample.remoteSlowPayment Sample.busHalf Sample.orderEnv
           {| OrderService.CreateOrderRequest.userId := "usr-001";
              OrderService.CreateOrderRequest.items :=
                [ {| OrderService.productId := "sample"; OrderService.quantity := 1;
                     OrderService.unitPrice := 0 |} ] |}
           OrderService.orders0).
  discriminate.
Defined.

(** X22: the PaymentProcessed event of an accepted payment request, once at
    the metrics collector, adds one metric of the payment service, tagged
    with the payment and its order: payments_successful when the draw
    completed the payment, payments_failed when it declined it. *)
Theorem createPayment_metered
    validate bus penv body (payments : gmap string PaymentService.Payment)
    env (state : AnalyticsService.State) :
  Contracts.eventTime (PaymentService.emitEnv penv) <> "" ->
  Forall (fun d =>
            let event := AnalyticsService.ofPaymentEvent (Contracts.sent d) in
            let '(res, state') := AnalyticsService.ingest env event state in
            Http.code res = 200
            /\ exists entry,
                 AnalyticsService.metrics state'
                 = AnalyticsService.metrics state ++ [entry]
                 /\ AnalyticsService.service entry = "payment-service"
                 /\ AnalyticsService.metric entry
                    = (if PrimFloat.ltb 0.1 (PaymentService.random penv)
                       then "payments_successful" else "payments_failed")
                 /\ AnalyticsService.tags entry
                    = [ ("paymentId", Some (PaymentService.newPaymentId penv));
                        ("orderId", Some (PaymentService.PaymentRequest.orderId body)) ])
         (PaymentService.createPayment validate bus penv body payments).2.
Proof.
  intros Htime. apply String.eqb_neq in Htime.
  createPayment_cases validate body penv; try constructor;
    rewrite ?payment_post_delivered;
    repeat constructor; cbn [Contracts.sent];
    rewrite ingest_checked by (cbn; auto);
    (split; [ reflexivity | ]); eexists; repeat split.
Qed.

Lemma createPayment_metered_witness :
  let env :=
    {| AnalyticsService.receivedTime := "2024-01-22T09:00:01.200Z";
       AnalyticsService.newMetricId := "mtr-lx3k9c7f3";
       AnalyticsService.metricTime := "2024-01-22T09:00:01.201Z";
       AnalyticsService.ackTime := "2024-01-22T09:00:01.202Z" |} in
  let state := {| AnalyticsService.metrics := []; AnalyticsService.events := [] |} in
  Forall (fun d =>
            let event := AnalyticsService.ofPaymentEvent (Contracts.sent d) in
            let '(res, state') := AnalyticsService.ingest env event state in
            Http.code res = 200
            /\ exists entry,
                 AnalyticsService.metrics state' = [entry]
                 /\ AnalyticsService.service entry = "payment-service"
                 /\ AnalyticsService.metric entry = "payments_failed"
                 /\ AnalyticsService.tags entry
                    = [ ("paymentId", Some "pay-lx3k9a5d1");
                        ("orderId", Some "ord-002") ])
         (PaymentService.createPayment PaymentService.PaymentRequestSchema
            Sample.busHalf (Sample.paymentEnv 0.05)
            (OrderService.paymentRequest "ord-002" 59.97) PaymentService.payments0).2.
Proof.
  apply (createPayment_metered PaymentService.PaymentRequestSchema
           Sample.busHalf (Sample.paymentEnv 0.05)
           (OrderService.paymentRequest "ord-002" 59.97) PaymentService.payments0).
  discriminate.
Defined.

(** ** The order service in front of the user and payment services *)

(** X23: let the user be known to the user service, the order's total be a
    finite number, the payment service accept the request, and both services'
    answers reach the order service within its timeouts.  Then order creation
    answers 201, and the order and the payment record of the payment service
    refer to each other according to the draw: above 0.1 the order is
    confirmed and carries the id of a completed payment made out for the
    order's id and total in USD; otherwise the order stays pending without a
    payment id, while the payment service keeps a failed payment for that
    order. *)
Theorem createOrder_with_services
    validate remote users pvalidate pbus penv payments bus env body
    (orders : gmap string OrderService.Order) user :
  validate body = None ->
  users !! OrderService.CreateOrderRequest.userId body = Some user ->
  OrderService.getUser remote (OrderService.CreateOrderRequest.userId body)
    = Http.Responded
        (UserService.getUser (OrderService.CreateOrderRequest.userId body) users) ->
  PrimFloat.is_finite
    (OrderService.calculateTotal (OrderService.CreateOrderRequest.items body)) = true ->
  pvalidate (Design.authorizationRequest env body) = None ->
  OrderService.postPayment remote (Design.authorizationRequest env body)
    = Http.Responded
        (PaymentService.createPayment pvalidate pbus penv
           (Design.authorizationRequest env body) payments).1.1 ->
  let '(res, orders', _) :=
    OrderService.createOrder validate remote bus env body orders in
  let payments' :=
    (PaymentService.createPayment pvalidate pbus penv
       (Design.authorizationRequest env body) payments).1.2 in
  Http.code res = 201
  /\ exists order payment,
       orders' !! OrderService.newOrderId env = Some order
       /\ payments' !! PaymentService.newPaymentId penv = Some payment
       /\ PaymentService.orderId payment = OrderService.id order
       /\ PaymentService.amount payment = OrderService.totalAmount order
       /\ PaymentService.currency payment = "USD"
       /\ if PrimFloat.ltb 0.1 (PaymentService.random penv) then
            OrderService.status order = "confirmed"
            /\ OrderService.paymentId order = Some (PaymentService.id payment)
            /\ PaymentService.status payment = "completed"
          else
            OrderService.status order = "pending"
            /\ OrderService.paymentId order = None
            /\ PaymentService.status payment = "failed".
Proof.
  intros Hvalid Hknown Hget _ Hpvalid Hpost.
  assert (Http.axios
            (OrderService.getUser remote (OrderService.CreateOrderRequest.userId body))
          = Http.Resolved (UserService.UserBody user)) as Huser.
  { rewrite Hget. unfold UserService.getUser. rewrite Hknown. reflexivity. }
  destruct (createPayment_record pvalidate pbus penv
              (Design.authorizationRequest env body) payments Hpvalid)
    as (record & -> & Hid & Horder & Hamount & _ & Hcurrency & Hdraw).
  cbn in Hcurrency.
  destruct (PrimFloat.ltb 0.1 (PaymentService.random penv)) eqn:Hrandom.
  - destruct (accepted_payment_201 pvalidate pbus penv _ payments Hpvalid Hrandom)
      as (response & Hanswer & Hcompleted & Hrid).
    assert (Http.axios (OrderService.postPayment remote (Design.authorizationRequest env body))
            = Http.Resolved (PaymentService.PaymentBody response)) as Hpay.
    { rewrite Hpost, Hanswer. reflexivity. }
    pose proof (createOrder_payment_resolved validate remote bus env body orders _ _
                  Hvalid Huser Hpay) as Hrun.
    destruct (OrderService.createOrder validate remote bus env body orders)
      as [[res orders'] deliveries].
    cbn [fst snd] in Hrun |- *. injection Hrun as -> ->.
    split; [ reflexivity | ].
    do 2 eexists. split; [ apply lookup_insert_eq | ].
    split; [ apply lookup_insert_eq | ].
    destruct Hdraw as (Hstatus & _).
    cbn. rewrite Hcompleted, Hrid, Hid, Horder, Hamount. repeat split; assumption.
  - assert (Http.axios (OrderService.postPayment remote (Design.authorizationRequest env body))
            = Http.Rejected) as Hpay.
    { rewrite Hpost. unfold Http.axios.
      rewrite (declined_payment_402 _ _ _ _ _ Hpvalid Hrandom). reflexivity. }
    pose proof (createOrder_payment_rejected validate remote bus env body orders _
                  Hvalid Huser Hpay) as Hrun.
    destruct (OrderService.createOrder validate remote bus env body orders)
      as [[res orders'] deliveries].
    cbn [fst snd] in Hrun |- *. injection Hrun as -> ->.
    split; [ reflexivity | ].
    do 2 eexists. split; [ apply lookup_insert_eq | ].
    split; [ apply lookup_insert_eq | ].
    destruct Hdraw as (Hstatus & _).
    cbn. rewrite Horder, Hamount. repeat split; assumption.
Qed.

Lemma createOrder_with_services_witness :
  let '(res, orders', _) :=
    OrderService.createOrder OrderService.CreateOrderRequestSchema
      (Sample.remote 0.05) Sample.busDown Sample.orderEnv
      (Sample.orderRequest "usr-001") OrderService.orders0 in
  let payments' :=
    (PaymentService.createPayment PaymentService.PaymentRequestSchema Sample.busDown
       (Sample.paymentEnv 0.05)
       (Design.authorizationRequest Sample.orderEnv (Sample.orderRequest "usr-001"))
       PaymentService.payments0).1.2 in
  Http.code res = 201
  /\ exists order payment,
       orders' !! "ord-lx3k9a1c4" = Some order
       /\ payments' !! "pay-lx3k9a5d1" = Some payment
       /\ PaymentService.orderId payment = OrderService.id order
       /\ PaymentService.amount payment = OrderService.totalAmount order
       /\ PaymentService.currency payment = "USD"
       /\ OrderService.status order = "pending"
       /\ OrderService.paymentId order = None
       /\ PaymentService.status payment = "failed".
Proof.
  apply (createOrder_with_services OrderService.CreateOrderRequestSchema
           (Sample.remote 0.05) UserService.users0
           PaymentService.PaymentRequestSchema Sample.busDown
           (Sample.paymentEnv 0.05) PaymentService.payments0 Sample.busDown
           Sample.orderEnv (Sample.orderRequest "usr-001") OrderService.orders0
           Sample.john);
    reflexivity.
Defined.
